(** * speechbubble: sentence assembly over WaniKani vocabulary

    A shallow embedding of the Python sources

      - [wanikani/models.py]            (the domain records),
      - [wanikani/client.py]            (the cache and the assignment join),
      - [wanikani/sentence_builder.py]  (part-of-speech buckets, grammar tables,
                                         the template sentence, the GPT call),
      - [main.py]                       ([fetch_vocabulary]),

    followed by the properties of these definitions.

    Conventions of the embedding.
      - A Python [str] is a Rocq [string] holding its UTF-8 encoding; test of
        a substring and concatenation agree with Python's on encoded text.
      - A Python [int] is a [Z], a [float] is a binary64 number
        ([spec_float]).  A [dict] used as a map is a [gmap]; a [set] is a
        [gset].
      - [==] and [!=] between values that the typing of the fields leaves
        open (what [json.load] has read, and with it the instances of a
        dataclass) are [py_eq] and the generated [__eq__], not the
        equality of Rocq: [True == 1], and the order of the items of a
        dict plays no part.
      - A call that may raise returns an [outcome]: [Ok v] or [Raise e].
      - What the outside world answers (the random generator, the clock, the
        files of the cache directory, the reply of the language model) is an
        argument of the function that consults it. *)

From stdpp Require Import gmap strings list fin_maps.
From Stdlib Require Floats.SpecFloat.

Open Scope string_scope.
Open Scope list_scope.

(** ** Python values and control *)

Module Py.

(** The exception classes that occur in the modelled code.
    [APIError] stands for whatever the HTTP layer of the openai package
    raises; it derives from [Exception] like all the others. *)
Inductive exn : Set :=
| Exception
| IndexError
| KeyError
| ValueError
| JSONDecodeError
| TypeError
| AttributeError
| FileNotFoundError
| APIError.

#[global] Instance exn_eq_dec : EqDecision exn.
Proof. solve_decision. Defined.

(** [isinstance e cls] for exception instances of exactly class [e]:
    every class derives from [Exception], and [json.JSONDecodeError]
    derives from [ValueError]. *)
Definition isinstance (e cls : exn) : bool :=
  bool_decide (e = cls)
  || bool_decide (cls = Exception)
  || (bool_decide (e = JSONDecodeError) && bool_decide (cls = ValueError)).

Inductive outcome (A : Type) : Type :=
| Ok (a : A)
| Raise (e : exn).
Arguments Ok {A} a.
Arguments Raise {A} e.

Definition bind {A B} (m : outcome A) (k : A -> outcome B) : outcome B :=
  match m with
  | Ok a => k a
  | Raise e => Raise e
  end.

(** [try: body  except (classes): handler] *)
Definition try_except {A} (body : outcome A) (classes : list exn)
    (handler : exn -> outcome A) : outcome A :=
  match body with
  | Ok a => Ok a
  | Raise e => if existsb (isinstance e) classes then handler e else Raise e
  end.

(** A comprehension or a [for] loop whose body may raise. *)
Fixpoint mapM {A B} (f : A -> outcome B) (l : list A) : outcome (list B) :=
  match l with
  | [] => Ok []
  | x :: l' =>
      bind (f x) (fun y => bind (mapM f l') (fun ys => Ok (y :: ys)))
  end.

Fixpoint foldM {A S} (f : S -> A -> outcome S) (l : list A) (s : S) : outcome S :=
  match l with
  | [] => Ok s
  | x :: l' => bind (f s x) (foldM f l')
  end.

(** Values read by [json.load]: [None], [bool], [int], [str], [list],
    and [dict] with its items in order.  (Numbers with a fraction do not
    occur in the data of this program.) *)
#[local] Set Warnings "-register-all".
Inductive json : Type :=
| JNull
| JBool (b : bool)
| JInt (z : Z)
| JStr (s : string)
| JArr (l : list json)
| JObj (d : list (string * json)).

#[global] Instance json_eq_dec : EqDecision json.
Proof.
  unfold EqDecision, Decision. fix IH 1. intros x y.
  decide equality.
  - apply bool_eq_dec.
  - apply Z.eq_dec.
  - apply String.string_dec.
  - apply (List.list_eq_dec IH).
  - apply List.list_eq_dec. intros [k1 v1] [k2 v2].
    destruct (String.string_dec k1 k2); [|right; congruence].
    destruct (IH v1 v2); [left|right]; congruence.
Defined.

(** Truth value of an object, as [if x:] and [not x] take it. *)
Definition truthy (v : json) : bool :=
  match v with
  | JNull => false
  | JBool b => b
  | JInt z => negb (z =? 0)%Z
  | JStr s => negb (bool_decide (s = ""))
  | JArr l => negb (bool_decide (l = []))
  | JObj d => negb (bool_decide (d = []))
  end.

(** Truth value of the result of [d.get(k)], which is [None] when the key
    is absent. *)
Definition truthy_opt (o : option json) : bool :=
  match o with
  | None => false
  | Some v => truthy v
  end.

(** Truth value of an [Optional[str]]. *)
Definition truthy_str (o : option string) : bool :=
  match o with
  | None => false
  | Some s => negb (bool_decide (s = ""))
  end.

(** [a or b] on [Optional[str]] operands. *)
Definition or_ (a b : option string) : option string :=
  if truthy_str a then a else b.

Fixpoint assoc (k : string) (d : list (string * json)) : option json :=
  match d with
  | [] => None
  | (k', v) :: d' => if bool_decide (k' = k) then Some v else assoc k d'
  end.

(** [v[k]] for a string key [k]. *)
Definition getitem (v : json) (k : string) : outcome json :=
  match v with
  | JObj d =>
      match assoc k d with
      | Some x => Ok x
      | None => Raise KeyError
      end
  | _ => Raise TypeError
  end.

(** [a == b] on values read by [json.load].  [True] and [False] are the
    integers 1 and 0 ([True == 1]); two lists are equal when they are so
    item by item; two dicts are equal when they bind the same keys to
    equal values, in whatever order the items were put in.
    [canonical v] is [v] with every bool as its integer and the items of
    every dict in the order that depends on the keys alone (where a list of
    items repeats a key, the item that [assoc] finds counts); two values
    are [==] when their canonical forms are the same. *)
Fixpoint canonical (v : json) : json :=
  match v with
  | JBool b => JInt (if b then 1 else 0)
  | JArr l => JArr (map canonical l)
  | JObj d =>
      let items := map (fun kv => (kv.1, canonical kv.2)) d in
      JObj (map_to_list (list_to_map items : gmap string json))
  | _ => v
  end.

Definition py_eq (a b : json) : bool :=
  bool_decide (canonical a = canonical b).

(** A [float] is a binary64 number.  [float_of_int z] holds the integer
    [z] exactly, as an operand; [truediv x y] is [x / y], the quotient
    rounded to the nearest float, ties to even, which is also what [/]
    gives for two [int] operands.  [gt_int x z] is [x > z] for a float [x]
    and an int [z], which Python compares exactly. *)
Definition float : Type := SpecFloat.spec_float.

Definition float_of_int (z : Z) : float :=
  match z with
  | Z0 => SpecFloat.S754_zero false
  | Zpos p => SpecFloat.S754_finite false p 0
  | Zneg p => SpecFloat.S754_finite true p 0
  end.

Definition truediv (x y : float) : float := SpecFloat.SFdiv 53 1024 x y.

Definition gt_int (x : float) (z : Z) : bool :=
  match x with
  | SpecFloat.S754_zero _ => bool_decide (z < 0)%Z
  | SpecFloat.S754_infinity s => negb s
  | SpecFloat.S754_nan => false
  | SpecFloat.S754_finite s m e =>
      let n := if s then Zneg m else Zpos m in
      if bool_decide (0 ≤ e)%Z then bool_decide (z < n * 2 ^ e)%Z
      else bool_decide (z * 2 ^ (- e) < n)%Z
  end.

(** [sub in s] on strings. *)
Fixpoint contains (sub s : string) : bool :=
  String.prefix sub s
  || match s with
     | EmptyString => false
     | String _ s' => contains sub s'
     end.

(** ["".join(parts)]: every part must be a [str]; a [None] among them
    raises [TypeError]. *)
Fixpoint join (parts : list (option string)) : outcome string :=
  match parts with
  | [] => Ok ""
  | None :: _ => Raise TypeError
  | Some s :: parts' => bind (join parts') (fun r => Ok (s +:+ r))
  end.

(** The random generator: the sequence of raw draws still to come. *)
Definition rng : Type := nat -> nat.

Definition advance (g : rng) : rng := fun i => g (S i).

(** [random.choice(seq)]: [IndexError] on an empty sequence, else the
    element at a drawn index below [len(seq)]. *)
Definition random_choice {A} (seq : list A) (g : rng) : outcome (A * rng) :=
  match seq with
  | [] => Raise IndexError
  | x :: _ => Ok (nth (g 0 mod length seq) seq x, advance g)
  end.

(** [d[k]] on a dictionary. *)
Definition subscript {V} (d : gmap string V) (k : string) : outcome V :=
  match d !! k with
  | Some v => Ok v
  | None => Raise KeyError
  end.

End Py.

Export Py.

(** [x ← m; k] runs [m] and, unless it raised, goes on with [k]. *)
#[global] Instance outcome_ret : MRet outcome := @Ok.
#[global] Instance outcome_bind : MBind outcome := fun A B k m => Py.bind m k.

(** ** wanikani/models.py *)

Module SrsStage.
Inductive t : Set :=
| APPRENTICE    (* 1-4 *)
| GURU          (* 5-6 *)
| MASTER        (* 7 *)
| ENLIGHTENED   (* 8 *)
| BURNED.       (* 9 *)

#[global] Instance eq_dec : EqDecision t.
Proof. solve_decision. Defined.

Definition value (stage : t) : string :=
  match stage with
  | APPRENTICE => "apprentice"
  | GURU => "guru"
  | MASTER => "master"
  | ENLIGHTENED => "enlightened"
  | BURNED => "burned"
  end.
End SrsStage.

Module Reading.
Record t : Type := mk {
  reading : string;
  primary : bool;
  accepted_answer : bool;
  type : string
}.
#[global] Instance eq_dec : EqDecision t.
Proof. solve_decision. Defined.
End Reading.

Module Meaning.
Record t : Type := mk {
  meaning : string;
  primary : bool;
  accepted_answer : bool
}.
#[global] Instance eq_dec : EqDecision t.
Proof. solve_decision. Defined.
End Meaning.

Module WaniKaniItem.
Record t : Type := mk {
  id : Z;
  object : string;
  level : Z;
  characters : string;
  meanings : list Meaning.t;
  readings : list Reading.t;
  parts_of_speech : list string;
  component_subject_ids : list Z;
  srs_stage : option Z;
  user_specific_data : option (gmap string json)
}.

#[global] Instance eq_dec : EqDecision t.
Proof. solve_decision. Defined.

(** The [__eq__] that [@dataclass] generates compares the tuples of the
    fields with [==], and [!=] is its negation.  On the fields that hold
    an [int], a [str], a [bool] or lists of such, [==] is equality; the
    values of [user_specific_data] are compared with [py_eq], as
    canonical forms. *)
Definition fields (self : t) :=
  (id self, object self, level self, characters self, meanings self,
   readings self, parts_of_speech self, component_subject_ids self,
   srs_stage self,
   (fun d : gmap string json => canonical <$> d) <$> user_specific_data self).

Definition __eq__ (self other : t) : bool :=
  bool_decide (fields self = fields other).

Definition primary_reading (self : t) : option string :=
  let primary_readings :=
    map Reading.reading (List.filter Reading.primary (readings self)) in
  match primary_readings with
  | r :: _ => Some r
  | [] => None
  end.

Definition primary_meaning (self : t) : option string :=
  let primary_meanings :=
    map Meaning.meaning (List.filter Meaning.primary (meanings self)) in
  match primary_meanings with
  | m :: _ => Some m
  | [] => None
  end.

(** The SRS stage name. *)
Definition srs_stage_name (self : t) : option string :=
  match srs_stage self with
  | None => None
  | Some stage =>
      if bool_decide (1 ≤ stage ≤ 4)%Z then Some (SrsStage.value SrsStage.APPRENTICE)
      else if bool_decide (5 ≤ stage ≤ 6)%Z then Some (SrsStage.value SrsStage.GURU)
      else if bool_decide (stage = 7)%Z then Some (SrsStage.value SrsStage.MASTER)
      else if bool_decide (stage = 8)%Z then Some (SrsStage.value SrsStage.ENLIGHTENED)
      else if bool_decide (stage = 9)%Z then Some (SrsStage.value SrsStage.BURNED)
      else None
  end.
End WaniKaniItem.

Module UserKnowledge.
Record t : Type := mk {
  vocabulary : list WaniKaniItem.t;
  kanji : list WaniKaniItem.t;
  level : Z
}.

(** Vocabulary items for a specific level. *)
Definition get_vocab_by_level (self : t) (level : Z) : list WaniKaniItem.t :=
  List.filter (fun v => bool_decide (WaniKaniItem.level v = level)) (vocabulary self).

(** Vocabulary items at a specific SRS stage. *)
Definition get_vocab_by_srs (self : t) (stage : SrsStage.t) : list WaniKaniItem.t :=
  List.filter
    (fun v => bool_decide (WaniKaniItem.srs_stage_name v = Some (SrsStage.value stage)))
    (vocabulary self).

(** Vocabulary items by part of speech. *)
Definition get_vocab_by_parts_of_speech (self : t) (pos : string)
    : list WaniKaniItem.t :=
  List.filter (fun v => bool_decide (pos ∈ WaniKaniItem.parts_of_speech v))
    (vocabulary self).

(** All kanji components of a vocabulary item. *)
Definition get_kanji_in_vocab (self : t) (vocab_item : WaniKaniItem.t)
    : list WaniKaniItem.t :=
  List.filter
    (fun k => bool_decide
                (WaniKaniItem.id k ∈ WaniKaniItem.component_subject_ids vocab_item))
    (kanji self).
End UserKnowledge.

(** ** wanikani/sentence_builder.py *)

(** Basic grammar elements not covered by WaniKani. *)
Definition GRAMMAR_ELEMENTS : gmap string (gmap string (gmap string (gmap string string))) :=
  {[ "beginner" :=
       {[ "particles" :=
            {[ "は" := {[ "characters" := "は"; "reading" := "wa"; "meaning" := "topic marker" ]};
               "が" := {[ "characters" := "が"; "reading" := "ga"; "meaning" := "subject marker" ]};
               "を" := {[ "characters" := "を"; "reading" := "o"; "meaning" := "object marker" ]};
               "に" := {[ "characters" := "に"; "reading" := "ni"; "meaning" := "indirect object, destination" ]};
               "で" := {[ "characters" := "で"; "reading" := "de"; "meaning" := "location of action" ]};
               "の" := {[ "characters" := "の"; "reading" := "no"; "meaning" := "possession" ]};
               "と" := {[ "characters" := "と"; "reading" := "to"; "meaning" := "with, and" ]};
               "も" := {[ "characters" := "も"; "reading" := "mo"; "meaning" := "also, too" ]} ]};
          "verb_endings" :=
            {[ "ます" := {[ "characters" := "ます"; "reading" := "masu"; "meaning" := "polite present" ]};
               "ました" := {[ "characters" := "ました"; "reading" := "mashita"; "meaning" := "polite past" ]};
               "ません" := {[ "characters" := "ません"; "reading" := "masen"; "meaning" := "polite negative" ]} ]} ]};
     "intermediate" :=
       {[ "particles" :=
            {[ "へ" := {[ "characters" := "へ"; "reading" := "e"; "meaning" := "towards" ]};
               "から" := {[ "characters" := "から"; "reading" := "kara"; "meaning" := "from" ]};
               "まで" := {[ "characters" := "まで"; "reading" := "made"; "meaning" := "until" ]};
               "より" := {[ "characters" := "より"; "reading" := "yori"; "meaning" := "than" ]};
               "だけ" := {[ "characters" := "だけ"; "reading" := "dake"; "meaning" := "only" ]} ]};
          "verb_endings" :=
            {[ "て" := {[ "characters" := "て"; "reading" := "te"; "meaning" := "te-form" ]};
               "た" := {[ "characters" := "た"; "reading" := "ta"; "meaning" := "past" ]};
               "ない" := {[ "characters" := "ない"; "reading" := "nai"; "meaning" := "negative" ]} ]} ]} ]}.

Module SentenceBuilder.

Record t : Type := mk {
  knowledge : UserKnowledge.t;
  grammar_level : string;
  started_vocab : gset Z;          (* IDs of started vocabulary *)
  openai_api_key : option string
}.

(** One turn of the loop of [_initialize_started_vocab].  The field
    [user_specific_data] is an [Optional[dict]]: [.get] on [None] raises
    [AttributeError]. *)
Definition _initialize_started_vocab_step (started_vocab : gset Z)
    (word : WaniKaniItem.t) : outcome (gset Z) :=
  match WaniKaniItem.user_specific_data word with
  | None => Raise AttributeError
  | Some d =>
      if truthy_opt (d !! "started_at")
      then Ok ({[ WaniKaniItem.id word ]} ∪ started_vocab)
      else Ok started_vocab
  end.

Definition _initialize_started_vocab (knowledge : UserKnowledge.t)
    (started_vocab : gset Z) : outcome (gset Z) :=
  foldM _initialize_started_vocab_step (UserKnowledge.vocabulary knowledge) started_vocab.

(** [SentenceBuilder(knowledge, grammar_level, openai_api_key)], where
    [getenv] is what [os.getenv("OPENAI_API_KEY")] answers.  (The
    assignment to [openai.api_key] touches no field of the builder.) *)
Definition __init__ (knowledge : UserKnowledge.t) (grammar_level : string)
    (openai_api_key : option string) (getenv : option string) : outcome t :=
  started_vocab ← _initialize_started_vocab knowledge ∅;
  Ok (mk knowledge grammar_level started_vocab (or_ openai_api_key getenv)).

(** Normalize part of speech categories. *)
Definition _normalize_pos (pos : string) : string :=
  if existsb (fun verb_type => contains verb_type pos)
       ["ichidan verb"; "godan verb"; "verb"]
  then "verb"
  else if existsb (fun adj_type => contains adj_type pos)
            ["い adjective"; "な adjective"; "の adjective"]
  then "adjective"
  else pos.

Definition pos_dict0 : gmap string (list WaniKaniItem.t) :=
  {[ "verb" := []; "noun" := []; "adjective" := []; "adverb" := [];
     "expression" := [] ]}.

(** Body of the inner loop: [for pos in word.parts_of_speech]. *)
Definition add_pos (word : WaniKaniItem.t)
    (pos_dict : gmap string (list WaniKaniItem.t)) (pos : string)
    : gmap string (list WaniKaniItem.t) :=
  let normalized_pos := _normalize_pos pos in
  match pos_dict !! normalized_pos with
  | Some words => <[ normalized_pos := words ++ [word] ]> pos_dict
  | None => pos_dict
  end.

(** Body of the outer loop: [for word in self.knowledge.vocabulary]. *)
Definition add_word (self : t)
    (pos_dict : gmap string (list WaniKaniItem.t)) (word : WaniKaniItem.t)
    : gmap string (list WaniKaniItem.t) :=
  if decide (WaniKaniItem.id word ∉ started_vocab self)
  then pos_dict
  else foldl (add_pos word) pos_dict (WaniKaniItem.parts_of_speech word).

(** Available words organized by part of speech, only including started
    items. *)
Definition get_available_words_by_pos (self : t)
    : gmap string (list WaniKaniItem.t) :=
  foldl (add_word self) pos_dict0 (UserKnowledge.vocabulary (knowledge self)).

(** Grammar elements for the current level.  The table is an argument of
    the loop so that the merge can be studied on any table; the method
    itself reads [GRAMMAR_ELEMENTS]. *)
Definition merge_category (category : string)
    (items : gmap string (gmap string string))
    (elements : gmap string (gmap string (gmap string string)))
    : gmap string (gmap string (gmap string string)) :=
  (* if category not in elements: elements[category] = {} *)
  let elements :=
    match elements !! category with
    | None => <[ category := ∅ ]> elements
    | Some _ => elements
    end in
  (* elements[category].update(items) *)
  match elements !! category with
  | Some current => <[ category := items ∪ current ]> elements
  | None => elements
  end.

Definition merge_level
    (table : gmap string (gmap string (gmap string (gmap string string))))
    (elements : gmap string (gmap string (gmap string string)))
    (level : string) : gmap string (gmap string (gmap string string)) :=
  match table !! level with
  | Some categories => map_fold merge_category elements categories
  | None => elements
  end.

Definition grammar_elements_of
    (table : gmap string (gmap string (gmap string (gmap string string))))
    (grammar_level : string) : gmap string (gmap string (gmap string string)) :=
  foldl (merge_level table) ∅ ["beginner"; grammar_level].

Definition get_grammar_elements (self : t)
    : gmap string (gmap string (gmap string string)) :=
  grammar_elements_of GRAMMAR_ELEMENTS (grammar_level self).

(** An element of [sentence_items]: a [WaniKaniItem] or a grammar [dict]. *)
Inductive slot : Type :=
| Item (word : WaniKaniItem.t)
| Dict (info : gmap string string).

(** [item['characters'] if isinstance(item, dict) else item.characters] *)
Definition slot_characters (item : slot) : outcome (option string) :=
  match item with
  | Dict info => c ← subscript info "characters"; Ok (Some c)
  | Item word => Ok (Some (WaniKaniItem.characters word))
  end.

(** [item['reading'] if isinstance(item, dict) else item.primary_reading] *)
Definition slot_reading (item : slot) : outcome (option string) :=
  match item with
  | Dict info => r ← subscript info "reading"; Ok (Some r)
  | Item word => Ok (WaniKaniItem.primary_reading word)
  end.

(** Build a basic subject-object-verb sentence.  The result is [None]
    or the triple [(japanese, reading, sentence_items)]; the generator is
    returned as the draws have left it. *)
Definition build_basic_sentence (self : t) (g : rng)
    : outcome (option (string * string * list slot) * rng) :=
  let available_words := get_available_words_by_pos self in
  let grammar := get_grammar_elements self in
  (* Need at least one noun and one verb *)
  nouns ← subscript available_words "noun";
  if bool_decide (nouns = []) then Ok (None, g) else
  verbs ← subscript available_words "verb";
  if bool_decide (verbs = []) then Ok (None, g) else
  (* Build sentence components *)
  nouns ← subscript available_words "noun";
  '(subject, g) ← random_choice nouns g;
  nouns ← subscript available_words "noun";
  '(object_, g) ←
     random_choice
       (List.filter (fun n => negb (WaniKaniItem.__eq__ n subject)) nouns) g;
  verbs ← subscript available_words "verb";
  '(verb, g) ← random_choice verbs g;
  (* Add particles *)
  let particles := default ∅ (grammar !! "particles") in
  wa ← subscript particles "は";
  wo ← subscript particles "を";
  (* Build the sentence *)
  let sentence_items := [Item subject; Dict wa; Item object_; Dict wo; Item verb] in
  japanese ← (parts ← mapM slot_characters sentence_items; join parts);
  reading ← (parts ← mapM slot_reading sentence_items; join parts);
  Ok (Some (japanese, reading, sentence_items), g).

(** [generate_sentence_with_gpt].  The prompt is put together by string
    formatting alone and is the content of the request; what comes back is
    [create]: the call [client.chat.completions.create(...)] raises, or
    answers with the [message.content] of each of [response.choices].
    [json_loads] is [json.loads]. *)
Definition generate_sentence_with_gpt (json_loads : string -> outcome json)
    (self : t) (num_sentences : Z) (create : outcome (list (option string)))
    : outcome json :=
  if negb (truthy_str (openai_api_key self))
  then Raise ValueError
  else
    try_except
      (response ← create;
       content ← match response with
                 | [] => Raise IndexError
                 | choice :: _ => Ok choice
                 end;
       result ← match content with
                | None => Raise TypeError
                | Some text => json_loads text
                end;
       getitem result "sentences")
      [Exception]
      (fun e => Ok (JArr [])).

End SentenceBuilder.

(** ** Records of the WaniKani API

    The fields that the code reads from the JSON records of the remote
    service.  A field of type [option] is a key that may be absent. *)

Module Assignment.
(** [a["data"]] of an assignment. *)
Record t : Type := mk {
  subject_id : Z;
  subject_type : option string;
  srs_stage : option Z;
  started_at : option json
}.

(** [a["data"].get("started_at") is not None] *)
Definition is_started (a : t) : bool :=
  match started_at a with
  | None | Some JNull => false
  | Some _ => true
  end.
End Assignment.

Module RawMeaning.
Record t : Type := mk {
  meaning : string;
  primary : option bool;
  accepted_answer : option bool
}.
End RawMeaning.

Module RawReading.
Record t : Type := mk {
  reading : string;
  primary : option bool;
  accepted_answer : option bool;
  type : option string
}.
End RawReading.

Module Subject.
(** A subject record: [id], [object], the fields of [data], and
    [user_specific_data] ([Some None] when the key holds [null]). *)
Record t : Type := mk {
  id : Z;
  object : string;
  level : Z;
  characters : string;
  meanings : list RawMeaning.t;
  readings : list RawReading.t;
  parts_of_speech : option (list string);
  component_subject_ids : option (list Z);
  user_specific_data : option (option (gmap string json))
}.

Definition convert_meaning (m : RawMeaning.t) : Meaning.t :=
  Meaning.mk (RawMeaning.meaning m)
    (default false (RawMeaning.primary m))
    (default true (RawMeaning.accepted_answer m)).

Definition convert_reading (r : RawReading.t) : Reading.t :=
  Reading.mk (RawReading.reading r)
    (default false (RawReading.primary r))
    (default true (RawReading.accepted_answer r))
    (default "reading" (RawReading.type r)).
End Subject.

Module Response.
(** The body of a response of a collection endpoint, as far as
    [_make_request] reads it: [data["data"]] ([None] when the key is
    absent) and [data.get("pages", {}).get("next_url")]. *)
Record t (A : Type) : Type := mk {
  data : option (list A);
  next_url : option string
}.
Arguments mk {A} data next_url.
Arguments data {A} _.
Arguments next_url {A} _.
End Response.

(** ** wanikani/client.py *)

Module WaniKaniAPI.

(** A [datetime]: microseconds on the local clock, naive or with an offset
    from UTC. *)
Inductive datetime : Type :=
| Naive (us : Z)
| Aware (us : Z) (utcoffset : Z).

(** [datetime.now() - cache_time], in microseconds: a naive and an aware
    [datetime] cannot be subtracted. *)
Definition since (now : Z) (cache_time : datetime) : outcome Z :=
  match cache_time with
  | Naive us => Ok (now - us)%Z
  | Aware _ _ => Raise TypeError
  end.

(** [age.total_seconds()] for a difference of [age] microseconds, which
    is [age / 10**6] (the difference of two datetimes is far below the
    range where the quotient would overflow), and the test
    [age.total_seconds() / 3600 > max_age_hours]. *)
Definition total_seconds (age : Z) : float :=
  truediv (float_of_int age) (float_of_int 1000000).

Definition too_old (age max_age_hours : Z) : bool :=
  gt_int (truediv (total_seconds age) (float_of_int 3600)) max_age_hours.

(** [Path("wanikani/cache") / f"{filename}.json"] *)
Definition cache_path (filename : string) : string :=
  "wanikani/cache/" +:+ filename +:+ ".json".

Section Cache.

(** The library functions of the cache: [json.dump] and [json.load] on the
    text of a file, [datetime.isoformat] and [datetime.fromisoformat]. *)
Variable json_dump : json -> string.
Variable json_load : string -> outcome json.
Variable isoformat : Z -> string.
Variable fromisoformat : string -> outcome datetime.

(** Save data to cache file with timestamp.  [files] are the files on disk,
    by path; [now] is the reading of the clock. *)
Definition save_cache (files : gmap string string) (now : Z)
    (data : json) (filename : string) : gmap string string :=
  let cache_data :=
    JObj [("timestamp", JStr (isoformat now)); ("data", data)] in
  <[ cache_path filename := json_dump cache_data ]> files.

(** [open(cache_path, "r")] and the reading of the text. *)
Definition open_ (files : gmap string string) (path : string) : outcome string :=
  match files !! path with
  | Some text => Ok text
  | None => Raise FileNotFoundError
  end.

(** Load data from cache file if it's not too old.  Python's [None] is
    [JNull]. *)
Definition load_cache (files : gmap string string) (now : Z)
    (filename : string) (max_age_hours : Z) : outcome json :=
  try_except
    (text ← open_ files (cache_path filename);
     cache_data ← json_load text;
     (* Check cache age *)
     timestamp ← getitem cache_data "timestamp";
     cache_time ← match timestamp with
                  | JStr s => fromisoformat s
                  | _ => Raise TypeError
                  end;
     age ← since now cache_time;
     if too_old age max_age_hours
     then Ok JNull
     else getitem cache_data "data")
    [FileNotFoundError; KeyError; ValueError]
    (fun e => Ok JNull).

End Cache.

(** Convert raw API data to WaniKaniItem. *)
Definition _convert_to_wanikani_item (raw_data : Subject.t)
    (srs_stage : option Z) : WaniKaniItem.t :=
  WaniKaniItem.mk
    (Subject.id raw_data)
    (Subject.object raw_data)
    (Subject.level raw_data)
    (Subject.characters raw_data)
    (map Subject.convert_meaning (Subject.meanings raw_data))
    (map Subject.convert_reading (Subject.readings raw_data))
    (default [] (Subject.parts_of_speech raw_data))
    (default [] (Subject.component_subject_ids raw_data))
    srs_stage
    (default (Some ∅) (Subject.user_specific_data raw_data)).

(** The assignment lookup of [get_user_knowledge]: one turn of the
    dictionary comprehension, then the comprehension.  An entry written
    later replaces an earlier one for the same key. *)
Definition assignment_lookup_step (lookup : gmap Z Z) (a : Assignment.t)
    : outcome (gmap Z Z) :=
  if Assignment.is_started a   (* Only include started assignments *)
  then match Assignment.srs_stage a with
       | Some stage => Ok (<[ Assignment.subject_id a := stage ]> lookup)
       | None => Raise KeyError
       end
  else Ok lookup.

Definition assignment_lookup (assignments : list Assignment.t)
    : outcome (gmap Z Z) :=
  foldM assignment_lookup_step assignments ∅.

(** [get_user_knowledge] past the cache: [user_level], [assignments],
    [vocab_data] and [kanji_data] are what the four requests have
    returned. *)
Definition get_user_knowledge (user_level : Z)
    (assignments : list Assignment.t) (vocab_data kanji_data : list Subject.t)
    : outcome UserKnowledge.t :=
  assignment_lookup ← assignment_lookup assignments;
  let vocabulary :=
    map (fun v => _convert_to_wanikani_item v (assignment_lookup !! Subject.id v))
        vocab_data in
  let kanji :=
    map (fun k => _convert_to_wanikani_item k (assignment_lookup !! Subject.id k))
        kanji_data in
  Ok (UserKnowledge.mk vocabulary kanji user_level).

Section Request.

(** The records of the endpoint, and the remote service:
    [get url] is [requests.get(url, headers=..., params=...)] followed by
    [raise_for_status()] and [json()]. *)
Variable A : Type.
Variable get : string -> outcome (Response.t A).

(** What [_make_request] returns: the response itself for the endpoint
    "user", else [{"data": results}]. *)
Inductive reply : Type :=
| Direct (data : Response.t A)
| Collected (results : list A).

(** The [while url:] loop, from the values of [url] and [results] at the
    test, with [sleeps] the number of calls of [time.sleep(0.5)] so far.
    The loop runs as long as the service names a next page: [fuel] bounds
    the number of turns, and [None] means that it was not enough. *)
Fixpoint _make_request_loop (fuel : nat) (endpoint : string)
    (url : option string) (results : list A) (sleeps : nat)
    : option (outcome (reply * nat)) :=
  match url with
  | Some u =>
      if bool_decide (u = "") then Some (Ok (Collected results, sleeps)) else
      match fuel with
      | O => None
      | S fuel =>
          match get u with
          | Raise e => Some (Raise e)
          | Ok data =>
              (* For non-collection endpoints, return the data directly *)
              if bool_decide (endpoint = "user")
              then Some (Ok (Direct data, sleeps))
              else
                (* Add the current page's data to our results *)
                let results :=
                  match Response.data data with
                  | Some page => results ++ page
                  | None => results
                  end in
                (* Get the next page URL if it exists; respect rate limiting *)
                _make_request_loop fuel endpoint (Response.next_url data)
                  results (S sleeps)
          end
      end
  | None => Some (Ok (Collected results, sleeps))
  end.

(** Make a request to the WaniKani API with automatic pagination. *)
Definition _make_request (fuel : nat) (base_url endpoint : string)
    : option (outcome (reply * nat)) :=
  _make_request_loop fuel endpoint (Some (base_url +:+ "/" +:+ endpoint)) [] 0.

End Request.

Arguments Direct {A} data.
Arguments Collected {A} results.
Arguments too_old : simpl never.
End WaniKaniAPI.

(** ** main.py *)

Module Main.

(** Started vocabulary IDs with their SRS stages. *)
Definition started_vocab_step (started_vocab : gmap Z Z) (a : Assignment.t)
    : outcome (gmap Z Z) :=
  if Assignment.is_started a
  then match Assignment.subject_type a with
       | None => Raise KeyError
       | Some ty =>
           if bool_decide (ty = "vocabulary")
           then Ok (<[ Assignment.subject_id a := default 0%Z (Assignment.srs_stage a) ]>
                      started_vocab)
           else Ok started_vocab
       end
  else Ok started_vocab.

Definition started_vocab (assignments : list Assignment.t) : outcome (gmap Z Z) :=
  foldM started_vocab_step assignments ∅.

(** One turn of the loop over [vocab_response["data"]]. *)
Definition vocab_items_step (started_vocab : gmap Z Z)
    (vocab_items : list WaniKaniItem.t) (item : Subject.t)
    : list WaniKaniItem.t :=
  match started_vocab !! Subject.id item with
  | Some stage =>
      vocab_items ++
      [WaniKaniItem.mk
         (Subject.id item)
         (Subject.object item)
         (Subject.level item)
         (Subject.characters item)
         (map Subject.convert_meaning (Subject.meanings item))
         (map Subject.convert_reading (Subject.readings item))
         (default [] (Subject.parts_of_speech item))
         (default [] (Subject.component_subject_ids item))
         (Some stage)
         (Some {[ "started_at" := JStr "2024-01-01" ]})]
  | None => vocab_items
  end.

(** Fetch vocabulary from WaniKani API: [vocab_response] and [assignments]
    are what the two requests have returned. *)
Definition fetch_vocabulary (vocab_response : list Subject.t)
    (assignments : list Assignment.t) : outcome (list WaniKaniItem.t) :=
  started_vocab ← started_vocab assignments;
  Ok (foldl (vocab_items_step started_vocab) [] vocab_response).

End Main.

(** * Vocabulary of the statements, and sample data *)

Import SentenceBuilder.

(** The two tests of [_normalize_pos], by what they look for. *)
Definition is_verb_tag (pos : string) : bool := contains "verb" pos.

Definition is_adjective_tag (pos : string) : bool :=
  contains "い adjective" pos || contains "な adjective" pos
  || contains "の adjective" pos.

(** The item carries a truthy ['started_at'] in its [user_specific_data]. *)
Definition has_started_at (word : WaniKaniItem.t) : bool :=
  match WaniKaniItem.user_specific_data word with
  | Some d => truthy_opt (d !! "started_at")
  | None => false
  end.

(** The fixed categories of [get_available_words_by_pos]. *)
Definition categories : gset string :=
  {[ "verb"; "noun"; "adjective"; "adverb"; "expression" ]}.

(** Sample vocabulary. *)
Definition sample_word (id : Z) (characters reading : string)
    (parts_of_speech : list string) (srs_stage : option Z)
    (user_specific_data : gmap string json) : WaniKaniItem.t :=
  WaniKaniItem.mk id "vocabulary" 1 characters
    [Meaning.mk "sample" true true]
    [Reading.mk reading true true "reading"]
    parts_of_speech [] srs_stage (Some user_specific_data).

Definition started_2024 : gmap string json := {[ "started_at" := JStr "2024-01-01" ]}.

Definition neko : WaniKaniItem.t := sample_word 1 "猫" "ねこ" ["noun"] (Some 5%Z) started_2024.
Definition inu : WaniKaniItem.t := sample_word 2 "犬" "いぬ" ["noun"] (Some 2%Z) started_2024.
Definition taberu : WaniKaniItem.t :=
  sample_word 3 "食べる" "たべる" ["ichidan verb"; "transitive verb"] (Some 1%Z) started_2024.

(** Two nouns and a verb, all started. *)
Definition knowledge_two_nouns : UserKnowledge.t :=
  UserKnowledge.mk [neko; inu; taberu] [] 1.
Definition builder_two_nouns : SentenceBuilder.t :=
  SentenceBuilder.mk knowledge_two_nouns "beginner" {[ 1%Z; 2%Z; 3%Z ]} None.

(** One noun and a verb, both started. *)
Definition knowledge_one_noun : UserKnowledge.t :=
  UserKnowledge.mk [neko; taberu] [] 1.
Definition builder_one_noun : SentenceBuilder.t :=
  SentenceBuilder.mk knowledge_one_noun "beginner" {[ 1%Z; 3%Z ]} None.

(** A second record with the id of [neko]: no ['started_at'], the empty
    map of [get_user_knowledge], and an SRS stage. *)
Definition neko_again : WaniKaniItem.t := sample_word 1 "ネコ" "ねこ" ["noun"] (Some 5%Z) ∅.
Definition knowledge_shared_id : UserKnowledge.t :=
  UserKnowledge.mk [neko; neko_again] [] 1.
Definition builder_shared_id : SentenceBuilder.t :=
  SentenceBuilder.mk knowledge_shared_id "beginner" {[ 1%Z ]} None.

(** [inu] without its ['started_at'], between two started items. *)
Definition inu_locked : WaniKaniItem.t := sample_word 2 "犬" "いぬ" ["noun"] (Some 2%Z) ∅.
Definition knowledge_one_started : UserKnowledge.t :=
  UserKnowledge.mk [neko; inu_locked; taberu] [] 1.
Definition builder_one_started : SentenceBuilder.t :=
  SentenceBuilder.mk knowledge_one_started "beginner" {[ 1%Z; 3%Z ]} None.

(** Two records of one noun that differ in how "started_at" is written,
    and a verb. *)
Definition neko_1 : WaniKaniItem.t :=
  sample_word 1 "猫" "ねこ" ["noun"] (Some 5%Z) {[ "started_at" := JInt 1 ]}.
Definition neko_True : WaniKaniItem.t :=
  sample_word 1 "猫" "ねこ" ["noun"] (Some 5%Z) {[ "started_at" := JBool true ]}.
Definition knowledge_equal_nouns : UserKnowledge.t :=
  UserKnowledge.mk [neko_1; neko_True; taberu] [] 1.
Definition builder_equal_nouns : SentenceBuilder.t :=
  SentenceBuilder.mk knowledge_equal_nouns "beginner" {[ 1%Z; 3%Z ]} None.

(** [inu_locked] after the started [inu], whose id it has. *)
Definition knowledge_locked_twin : UserKnowledge.t :=
  UserKnowledge.mk [inu; inu_locked; taberu] [] 1.
Definition builder_locked_twin : SentenceBuilder.t :=
  SentenceBuilder.mk knowledge_locked_twin "beginner" {[ 2%Z; 3%Z ]} None.

(** A tier of a grammar table (empty when the table has no such tier), and
    the entry of a category under a key. *)
Definition tier (table : gmap string (gmap string (gmap string (gmap string string))))
    (name : string) : gmap string (gmap string (gmap string string)) :=
  default ∅ (table !! name).

Definition entry (elements : gmap string (gmap string (gmap string string)))
    (category key : string) : option (gmap string string) :=
  elements !! category ≫= (fun items => items !! key).

Definition wa_info : gmap string string :=
  {[ "characters" := "は"; "reading" := "wa"; "meaning" := "topic marker" ]}.
Definition wo_info : gmap string string :=
  {[ "characters" := "を"; "reading" := "o"; "meaning" := "object marker" ]}.

(** The sentence once the three words are chosen. *)
Definition assemble (subject object_ verb : WaniKaniItem.t) (g : rng)
    : outcome (option (string * string * list slot) * rng) :=
  let sentence_items :=
    [Item subject; Dict wa_info; Item object_; Dict wo_info; Item verb] in
  japanese ← (parts ← mapM slot_characters sentence_items; join parts);
  reading ← (parts ← mapM slot_reading sentence_items; join parts);
  Ok (Some (japanese, reading, sentence_items), g).

(** Sample records of the remote service. *)
Definition assignment_7_locked : Assignment.t :=
  Assignment.mk 7 (Some "vocabulary") (Some 5%Z) None.
Definition assignment_7_started : Assignment.t :=
  Assignment.mk 7 (Some "vocabulary") (Some 3%Z) (Some (JStr "2024-03-01T10:00:00Z")).
Definition assignment_8_started : Assignment.t :=
  Assignment.mk 8 (Some "vocabulary") (Some 2%Z) (Some (JStr "2024-03-02T10:00:00Z")).

Definition subject_7 : Subject.t :=
  Subject.mk 7 "vocabulary" 1 "山"
    [RawMeaning.mk "mountain" (Some true) None]
    [RawReading.mk "やま" (Some true) None None]
    (Some ["noun"]) None None.

(** The stages that a stage name covers, as the comments of [SrsStage]
    give them. *)
Definition stage_covers (stage : SrsStage.t) (n : Z) : Prop :=
  match stage with
  | SrsStage.APPRENTICE => (1 ≤ n ≤ 4)%Z
  | SrsStage.GURU => (5 ≤ n ≤ 6)%Z
  | SrsStage.MASTER => n = 7%Z
  | SrsStage.ENLIGHTENED => n = 8%Z
  | SrsStage.BURNED => n = 9%Z
  end.

(** The started words under a category, as a comprehension: in the order
    of the vocabulary, one copy of the word for each of its tags that
    normalizes to the category. *)
Definition copies_of (category : string) (word : WaniKaniItem.t)
    : list WaniKaniItem.t :=
  flat_map (fun pos => if decide (_normalize_pos pos = category) then [word] else [])
    (WaniKaniItem.parts_of_speech word).

Definition words_under (self : SentenceBuilder.t) (category : string)
    : list WaniKaniItem.t :=
  flat_map (fun word => if decide (WaniKaniItem.id word ∈ started_vocab self)
                        then copies_of category word else [])
    (UserKnowledge.vocabulary (knowledge self)).

(** An adverb, started, next to a noun. *)
Definition hayaku : WaniKaniItem.t :=
  sample_word 4 "早く" "はやく" ["adverb"] (Some 3%Z) started_2024.
Definition builder_with_adverb : SentenceBuilder.t :=
  SentenceBuilder.mk (UserKnowledge.mk [neko; hayaku] [] 1) "beginner"
    {[ 1%Z; 4%Z ]} None.

(** A builder with a grammar level that the table does not have. *)
Definition builder_advanced : SentenceBuilder.t :=
  SentenceBuilder.mk knowledge_two_nouns "advanced" {[ 1%Z; 2%Z; 3%Z ]} None.

(** A noun without a reading flagged primary, next to [neko] and a verb. *)
Definition tori : WaniKaniItem.t :=
  WaniKaniItem.mk 5 "vocabulary" 1 "鳥" [Meaning.mk "bird" true true]
    [Reading.mk "とり" false true "reading"] ["noun"] [] (Some 1%Z)
    (Some started_2024).
Definition builder_no_reading : SentenceBuilder.t :=
  SentenceBuilder.mk (UserKnowledge.mk [tori; neko; taberu] [] 1) "beginner"
    {[ 1%Z; 3%Z; 5%Z ]} None.

(** The records that write the key [s] into the assignment lookup of
    [get_user_knowledge], and into the mapping of [fetch_vocabulary]. *)
Definition writes_lookup (s : Z) (a : Assignment.t) : bool :=
  Assignment.is_started a && bool_decide (Assignment.subject_id a = s).

Definition writes_started_vocab (s : Z) (a : Assignment.t) : bool :=
  Assignment.is_started a
  && bool_decide (Assignment.subject_type a = Some "vocabulary")
  && bool_decide (Assignment.subject_id a = s).

(** The item that [fetch_vocabulary] makes of a subject record. *)
Definition fetched_item (item : Subject.t) (stage : Z) : WaniKaniItem.t :=
  WaniKaniItem.mk
    (Subject.id item) (Subject.object item) (Subject.level item)
    (Subject.characters item)
    (map Subject.convert_meaning (Subject.meanings item))
    (map Subject.convert_reading (Subject.readings item))
    (default [] (Subject.parts_of_speech item))
    (default [] (Subject.component_subject_ids item))
    (Some stage)
    (Some {[ "started_at" := JStr "2024-01-01" ]}).

(** [pages_from get url pages]: following the next-page links from [url],
    the service answers with [pages], the last of which names no next
    page (the link is absent or empty). *)
Inductive pages_from {A} (get : string -> outcome (Response.t A))
    : option string -> list (Response.t A) -> Prop :=
| pages_done url : truthy_str url = false -> pages_from get url []
| pages_more u data rest :
    u <> "" -> get u = Ok data -> pages_from get (Response.next_url data) rest ->
    pages_from get (Some u) (data :: rest).

(** [fails_after get url pages e]: following the links from [url], the
    service answers with [pages] and then fails with [e]. *)
Inductive fails_after {A} (get : string -> outcome (Response.t A))
    : option string -> list (Response.t A) -> exn -> Prop :=
| fails_here u e : u <> "" -> get u = Raise e -> fails_after get (Some u) [] e
| fails_later u data rest e :
    u <> "" -> get u = Ok data -> fails_after get (Response.next_url data) rest e ->
    fails_after get (Some u) (data :: rest) e.

(** The records of all pages, in order. *)
Definition all_records {A} (pages : list (Response.t A)) : list A :=
  flat_map (fun data => default [] (Response.data data)) pages.

(** Sample pages of an endpoint of numbers. *)
Definition page_1 : Response.t Z :=
  Response.mk (Some [1%Z; 2%Z]) (Some "https://api/subjects?page=2").
Definition page_2 : Response.t Z := Response.mk (Some [3%Z]) None.
Definition two_pages (url : string) : outcome (Response.t Z) :=
  if bool_decide (url = "https://api/subjects") then Ok page_1
  else if bool_decide (url = "https://api/subjects?page=2") then Ok page_2
  else Raise ValueError.
Definition second_page_fails (url : string) : outcome (Response.t Z) :=
  if bool_decide (url = "https://api/subjects") then Ok page_1
  else Raise ValueError.
Definition page_loop : Response.t Z :=
  Response.mk (Some [1%Z]) (Some "https://api/subjects").
Definition same_page_again (url : string) : outcome (Response.t Z) :=
  Ok page_loop.

(** * Properties *)

(** ** Substrings *)

Lemma app_cons (c : Ascii.ascii) (a b : string) :
  String c a +:+ b = String c (a +:+ b).
Proof. reflexivity. Qed.

Lemma prefix_nil (s : string) : String.prefix "" s = true.
Proof. by destruct s. Qed.

Lemma prefix_app (sub post : string) : String.prefix sub (sub +:+ post) = true.
Proof.
  induction sub as [|c sub IH].
  - apply prefix_nil.
  - rewrite app_cons. simpl.
    destruct (Ascii.ascii_dec c c); [exact IH | congruence].
Qed.

Lemma prefix_inv (sub s : string) :
  String.prefix sub s = true -> exists post, s = sub +:+ post.
Proof.
  revert s. induction sub as [|c sub IH]; intros s H.
  - exists s. reflexivity.
  - destruct s as [|c' s]; simpl in H; [discriminate|].
    destruct (Ascii.ascii_dec c c') as [->|]; [|discriminate].
    destruct (IH s H) as [post ->]. exists post. reflexivity.
Qed.

Lemma contains_unfold (sub s : string) :
  contains sub s =
    String.prefix sub s
    || match s with
       | EmptyString => false
       | String _ s' => contains sub s'
       end.
Proof. by destruct s. Qed.

(** [contains sub s] holds exactly when [sub] occurs in [s]. *)
Lemma contains_spec (sub s : string) :
  contains sub s = true <-> exists pre post, s = pre +:+ sub +:+ post.
Proof.
  split.
  - induction s as [|c s IH]; intros H.
    + destruct sub; [|discriminate]. by exists "", "".
    + change (String.prefix sub (String c s) || contains sub s = true) in H.
      apply orb_true_iff in H as [H|H].
      * destruct (prefix_inv _ _ H) as [post E]. exists "", post. exact E.
      * destruct (IH H) as (pre & post & ->). exists (String c pre), post.
        reflexivity.
  - intros (pre & post & ->). induction pre as [|c pre IH].
    + change ("" +:+ sub +:+ post) with (sub +:+ post).
      by rewrite contains_unfold, prefix_app.
    + rewrite app_cons, contains_unfold, IH. apply orb_true_r.
Qed.

Lemma string_app_assoc (a b c : string) : (a +:+ b) +:+ c = a +:+ b +:+ c.
Proof.
  induction a as [|x a IH]; [reflexivity|].
  rewrite !app_cons. by rewrite IH.
Qed.

Lemma string_app_nil_r (a : string) : a +:+ "" = a.
Proof.
  induction a as [|x a IH]; [reflexivity|]. rewrite app_cons. by rewrite IH.
Qed.

Lemma contains_trans (a b c : string) :
  contains a b = true -> contains b c = true -> contains a c = true.
Proof.
  rewrite !contains_spec. intros (p1 & q1 & ->) (p2 & q2 & ->).
  exists (p2 +:+ p1), (q1 +:+ q2). by rewrite !string_app_assoc.
Qed.

Lemma contains_false_trans (a b c : string) :
  contains a b = true -> contains a c = false -> contains b c = false.
Proof.
  intros Hab Hac. destruct (contains b c) eqn:Hbc; [|reflexivity].
  rewrite (contains_trans _ _ _ Hab Hbc) in Hac. discriminate.
Qed.

(** ** Part-of-speech normalization *)

Lemma verb_types_contain pos :
  existsb (fun verb_type => contains verb_type pos)
    ["ichidan verb"; "godan verb"; "verb"] = is_verb_tag pos.
Proof.
  unfold is_verb_tag. cbn [existsb]. rewrite orb_false_r.
  destruct (contains "verb" pos) eqn:Hv.
  - by rewrite !orb_true_r.
  - rewrite (contains_false_trans "verb" "ichidan verb" pos), 
      (contains_false_trans "verb" "godan verb" pos); done.
Qed.

Lemma normalize_pos_cases pos :
  _normalize_pos pos =
    if is_verb_tag pos then "verb"
    else if is_adjective_tag pos then "adjective" else pos.
Proof.
  unfold _normalize_pos. rewrite verb_types_contain.
  unfold is_adjective_tag. cbn [existsb]. by rewrite orb_false_r, orb_assoc.
Qed.

Lemma normalize_pos_not_adverb pos : _normalize_pos pos <> "adverb".
Proof.
  rewrite normalize_pos_cases.
  destruct (is_verb_tag pos) eqn:Hv; [discriminate|].
  destruct (is_adjective_tag pos); [discriminate|].
  intros ->. discriminate Hv.
Qed.

(** C4 (as amended).  [_normalize_pos] tests for a verb first: a tag
    containing "verb" maps to "verb"; a tag that does not contain "verb"
    and contains "い adjective", "な adjective" or "の adjective" maps to
    "adjective"; every other tag is returned unchanged. *)
Theorem normalize_pos_by_priority (pos : string) :
  (contains "verb" pos = true -> _normalize_pos pos = "verb") /\
  (contains "verb" pos = false ->
   contains "い adjective" pos = true \/ contains "な adjective" pos = true
     \/ contains "の adjective" pos = true ->
   _normalize_pos pos = "adjective") /\
  (contains "verb" pos = false ->
   contains "い adjective" pos = false -> contains "な adjective" pos = false ->
   contains "の adjective" pos = false ->
   _normalize_pos pos = pos).
Proof.
  rewrite normalize_pos_cases. unfold is_verb_tag, is_adjective_tag.
  repeat split.
  - by intros ->.
  - intros -> [-> | [-> | ->]]; by rewrite ?orb_true_r.
  - by intros -> -> -> ->.
Qed.

(** The tags named by the specification. *)
Example normalize_pos_samples :
  _normalize_pos "godan verb" = "verb" /\
  _normalize_pos "ichidan verb" = "verb" /\
  _normalize_pos "transitive verb" = "verb" /\
  _normalize_pos "い adjective" = "adjective" /\
  _normalize_pos "な adjective" = "adjective" /\
  _normalize_pos "の adjective" = "adjective" /\
  _normalize_pos "noun" = "noun" /\
  _normalize_pos "expression" = "expression".
Proof. repeat split; reflexivity. Qed.

(** C4, counterexample: a tag that contains "い adjective" and also "verb"
    is not mapped to "adjective". *)
Lemma normalize_pos_adjective_with_verb :
  contains "い adjective" "い adjective verb" = true /\
  _normalize_pos "い adjective verb" = "verb" /\
  _normalize_pos "い adjective verb" <> "adjective".
Proof. repeat split; [reflexivity..|discriminate]. Qed.

(** ** The part-of-speech buckets *)

Lemma add_pos_dom word pos_dict pos : dom (add_pos word pos_dict pos) = dom pos_dict.
Proof.
  unfold add_pos. destruct (pos_dict !! _normalize_pos pos) eqn:E; [|done].
  apply dom_insert_lookup_L. by rewrite E.
Qed.

Lemma add_pos_adverb word pos_dict pos :
  add_pos word pos_dict pos !! "adverb" = pos_dict !! "adverb".
Proof.
  unfold add_pos. destruct (pos_dict !! _normalize_pos pos); [|done].
  apply lookup_insert_ne, normalize_pos_not_adverb.
Qed.

Lemma add_pos_elem word pos_dict pos p words x :
  add_pos word pos_dict pos !! p = Some words -> x ∈ words ->
  x = word \/ exists words', pos_dict !! p = Some words' /\ x ∈ words'.
Proof.
  unfold add_pos. destruct (pos_dict !! _normalize_pos pos) as [l|] eqn:E.
  - destruct (decide (_normalize_pos pos = p)) as [<-|Hne].
    + rewrite lookup_insert_eq. intros Heq Hx. injection Heq as <-.
      apply elem_of_app in Hx as [Hx|Hx].
      * right. eauto.
      * left. by apply list_elem_of_singleton in Hx.
    + rewrite lookup_insert_ne by done. eauto.
  - eauto.
Qed.

Lemma foldl_add_pos_dom word l pos_dict :
  dom (foldl (add_pos word) pos_dict l) = dom pos_dict.
Proof.
  revert pos_dict. induction l as [|pos l IH]; intros d; simpl; [done|].
  by rewrite IH, add_pos_dom.
Qed.

Lemma foldl_add_pos_adverb word l pos_dict :
  foldl (add_pos word) pos_dict l !! "adverb" = pos_dict !! "adverb".
Proof.
  revert pos_dict. induction l as [|pos l IH]; intros d; simpl; [done|].
  by rewrite IH, add_pos_adverb.
Qed.

Lemma foldl_add_pos_elem word l pos_dict p words x :
  foldl (add_pos word) pos_dict l !! p = Some words -> x ∈ words ->
  x = word \/ exists words', pos_dict !! p = Some words' /\ x ∈ words'.
Proof.
  revert pos_dict words. induction l as [|pos l IH]; intros d words; simpl.
  - eauto.
  - intros H Hx. destruct (IH _ _ H Hx) as [->|(words' & H' & Hx')]; [by left|].
    eapply add_pos_elem; eauto.
Qed.

Lemma add_word_dom self pos_dict word :
  dom (add_word self pos_dict word) = dom pos_dict.
Proof.
  unfold add_word. case_decide; [done|]. apply foldl_add_pos_dom.
Qed.

Lemma add_word_adverb self pos_dict word :
  add_word self pos_dict word !! "adverb" = pos_dict !! "adverb".
Proof.
  unfold add_word. case_decide; [done|]. apply foldl_add_pos_adverb.
Qed.

Lemma add_word_elem self pos_dict word p words x :
  add_word self pos_dict word !! p = Some words -> x ∈ words ->
  (x = word /\ WaniKaniItem.id word ∈ started_vocab self)
  \/ exists words', pos_dict !! p = Some words' /\ x ∈ words'.
Proof.
  unfold add_word. case_decide as Hid; [eauto|].
  intros H Hx. destruct (foldl_add_pos_elem _ _ _ _ _ _ H Hx) as [->|?]; [|eauto].
  left. by split.
Qed.

Lemma foldl_add_word_elem self vocabulary pos_dict p words x :
  foldl (add_word self) pos_dict vocabulary !! p = Some words -> x ∈ words ->
  (x ∈ vocabulary /\ WaniKaniItem.id x ∈ started_vocab self)
  \/ exists words', pos_dict !! p = Some words' /\ x ∈ words'.
Proof.
  revert pos_dict words. induction vocabulary as [|w l IH]; intros d words; simpl.
  - eauto.
  - intros H Hx. destruct (IH _ _ H Hx) as [[Hin Hs]|(words' & H' & Hx')].
    + left. split; [by right | done].
    + destruct (add_word_elem _ _ _ _ _ _ H' Hx') as [[-> Hs]|?]; [|eauto].
      left. split; [by left | done].
Qed.

Lemma pos_dict0_elem p words (x : WaniKaniItem.t) :
  pos_dict0 !! p = Some words -> x ∈ words -> False.
Proof.
  unfold pos_dict0. rewrite !lookup_insert, lookup_singleton. intros H Hx.
  repeat case_decide; simplify_eq; by apply not_elem_of_nil in Hx.
Qed.

Lemma available_words_dom self :
  dom (get_available_words_by_pos self) = dom pos_dict0.
Proof.
  unfold get_available_words_by_pos.
  generalize pos_dict0. induction (UserKnowledge.vocabulary (knowledge self)) as [|w l IH];
    intros d; simpl; [done|].
  by rewrite IH, add_word_dom.
Qed.

Lemma pos_dict0_dom :
  dom pos_dict0 = ({[ "verb"; "noun"; "adjective"; "adverb"; "expression" ]} : gset string).
Proof. unfold pos_dict0. rewrite !dom_insert_L, dom_singleton_L. set_solver. Qed.

(** ** Construction of the builder *)

Lemma initialize_started_vocab_step_spec started word started' :
  _initialize_started_vocab_step started word = Ok started' ->
  forall i, i ∈ started' <->
            i ∈ started \/ (WaniKaniItem.id word = i /\ has_started_at word = true).
Proof.
  unfold _initialize_started_vocab_step, has_started_at.
  destruct (WaniKaniItem.user_specific_data word) as [d|]; [|discriminate].
  destruct (truthy_opt (d !! "started_at")); intros [= <-] i.
  - rewrite elem_of_union, elem_of_singleton. intuition congruence.
  - intuition congruence.
Qed.

Lemma foldM_started_vocab_spec vocabulary started started' :
  foldM _initialize_started_vocab_step vocabulary started = Ok started' ->
  forall i, i ∈ started' <->
            i ∈ started \/
            exists word, word ∈ vocabulary /\ WaniKaniItem.id word = i
                         /\ has_started_at word = true.
Proof.
  revert started. induction vocabulary as [|w l IH]; intros started; simpl.
  - intros [= <-] i. split; [eauto|]. intros [?|(w & Hw & _)]; [done|].
    by apply not_elem_of_nil in Hw.
  - destruct (_initialize_started_vocab_step started w) as [s1|] eqn:E1;
      [|discriminate].
    simpl. intros H i. rewrite (IH _ H i).
    rewrite (initialize_started_vocab_step_spec _ _ _ E1 i).
    split.
    + intros [[?|[? ?]]|(w' & Hw' & ? & ?)]; eauto.
      * right. exists w. split; [by left | done].
      * right. exists w'. split; [by right | done].
    + intros [?|(w' & Hw' & ? & ?)]; [eauto|].
      apply elem_of_cons in Hw' as [->|Hw']; eauto 10.
Qed.

Lemma init_spec knowledge0 level key getenv self :
  __init__ knowledge0 level key getenv = Ok self ->
  knowledge self = knowledge0 /\ grammar_level self = level /\
  openai_api_key self = or_ key getenv /\
  forall i, i ∈ started_vocab self <->
            exists word, word ∈ UserKnowledge.vocabulary knowledge0
                         /\ WaniKaniItem.id word = i /\ has_started_at word = true.
Proof.
  unfold __init__, _initialize_started_vocab.
  destruct (foldM _ _ _) as [s|] eqn:E; [|discriminate].
  simpl. intros [= <-]. simpl. repeat split; try done.
  - rewrite (foldM_started_vocab_spec _ _ _ E i). intros [H|H]; [|done].
    by apply not_elem_of_empty in H.
  - rewrite (foldM_started_vocab_spec _ _ _ E i). eauto.
Qed.

Lemma available_words_elem self p words x :
  get_available_words_by_pos self !! p = Some words -> x ∈ words ->
  x ∈ UserKnowledge.vocabulary (knowledge self)
  /\ WaniKaniItem.id x ∈ started_vocab self.
Proof.
  intros H Hx.
  destruct (foldl_add_word_elem _ _ _ _ _ _ H Hx) as [?|(words' & H' & Hx')];
    [done|].
  destruct (pos_dict0_elem _ _ _ H' Hx').
Qed.

(** Conversely, a started item is listed under each of its normalized
    tags that is one of the five categories. *)
Lemma add_pos_keeps word pos_dict pos p words x :
  pos_dict !! p = Some words -> x ∈ words ->
  exists words', add_pos word pos_dict pos !! p = Some words' /\ x ∈ words'.
Proof.
  intros H Hx. unfold add_pos.
  destruct (pos_dict !! _normalize_pos pos) as [l|] eqn:E; [|eauto].
  destruct (decide (_normalize_pos pos = p)) as [<-|Hne].
  - rewrite lookup_insert_eq. eexists. split; [done|].
    rewrite E in H. injection H as ->. apply elem_of_app. by left.
  - rewrite lookup_insert_ne by done. eauto.
Qed.

Lemma foldl_add_pos_keeps word l pos_dict p words x :
  pos_dict !! p = Some words -> x ∈ words ->
  exists words', foldl (add_pos word) pos_dict l !! p = Some words' /\ x ∈ words'.
Proof.
  revert pos_dict words. induction l as [|pos l IH]; intros d words H Hx; simpl.
  - eauto.
  - destruct (add_pos_keeps word d pos p words x H Hx) as (words' & H' & Hx').
    eauto.
Qed.

Lemma foldl_add_pos_adds word l pos_dict pos :
  pos ∈ l -> _normalize_pos pos ∈ dom pos_dict ->
  exists words,
    foldl (add_pos word) pos_dict l !! _normalize_pos pos = Some words
    /\ word ∈ words.
Proof.
  revert pos_dict. induction l as [|pos' l IH]; intros d Hin Hdom.
  - by apply not_elem_of_nil in Hin.
  - simpl. apply elem_of_cons in Hin as [<-|Hin].
    + apply elem_of_dom in Hdom as [ws Hws].
      apply (foldl_add_pos_keeps word l _ _ (ws ++ [word])).
      * unfold add_pos. rewrite Hws. apply lookup_insert_eq.
      * apply elem_of_app. right. by left.
    + apply IH; [done|]. by rewrite add_pos_dom.
Qed.

Lemma foldl_add_word_keeps self vocabulary pos_dict p words x :
  pos_dict !! p = Some words -> x ∈ words ->
  exists words',
    foldl (add_word self) pos_dict vocabulary !! p = Some words' /\ x ∈ words'.
Proof.
  revert pos_dict words.
  induction vocabulary as [|w l IH]; intros d words H Hx; simpl; [eauto|].
  unfold add_word at 2. case_decide; [eauto|].
  destruct (foldl_add_pos_keeps w (WaniKaniItem.parts_of_speech w) d p words x H Hx)
    as (words' & H' & Hx'). eauto.
Qed.

Lemma available_words_complete self word pos :
  word ∈ UserKnowledge.vocabulary (knowledge self) ->
  WaniKaniItem.id word ∈ started_vocab self ->
  pos ∈ WaniKaniItem.parts_of_speech word ->
  _normalize_pos pos ∈ categories ->
  exists words,
    get_available_words_by_pos self !! _normalize_pos pos = Some words
    /\ word ∈ words.
Proof.
  intros Hin Hid Hpos Hcat. unfold get_available_words_by_pos.
  unfold categories in Hcat. rewrite <- pos_dict0_dom in Hcat.
  revert Hcat. generalize pos_dict0.
  induction (UserKnowledge.vocabulary (knowledge self)) as [|w l IH];
    intros d Hcat; [by apply not_elem_of_nil in Hin|].
  simpl. apply elem_of_cons in Hin as [<-|Hin].
  - unfold add_word at 2. case_decide as Hn; [contradiction|].
    destruct (foldl_add_pos_adds word (WaniKaniItem.parts_of_speech word) d pos
                Hpos Hcat) as (words & H & Hw).
    eapply foldl_add_word_keeps; eauto.
  - apply IH; [done|]. by rewrite add_word_dom.
Qed.

(** C5 (as amended).  For every knowledge snapshot from which a builder is
    made, the mapping returned by [get_available_words_by_pos] has exactly
    the keys verb, noun, adjective, adverb and expression, each bound to a
    list, and every item of every list is an item of the vocabulary whose
    id is a started id: it is in [started_vocab], that is, some vocabulary
    item with this id carries a truthy ['started_at'].  Where no other
    item of the vocabulary has the id of a listed item, the listed item
    itself carries it. *)
Theorem available_words_five_keys knowledge0 level key getenv self :
  __init__ knowledge0 level key getenv = Ok self ->
  dom (get_available_words_by_pos self) = categories /\
  (forall pos, pos ∈ categories ->
     exists words, get_available_words_by_pos self !! pos = Some words) /\
  (forall pos words word,
     get_available_words_by_pos self !! pos = Some words -> word ∈ words ->
     word ∈ UserKnowledge.vocabulary knowledge0 /\
     WaniKaniItem.id word ∈ started_vocab self /\
     (exists word', word' ∈ UserKnowledge.vocabulary knowledge0 /\
                    WaniKaniItem.id word' = WaniKaniItem.id word /\
                    has_started_at word' = true) /\
     ((forall word', word' ∈ UserKnowledge.vocabulary knowledge0 ->
                     WaniKaniItem.id word' = WaniKaniItem.id word ->
                     word' = word) ->
      has_started_at word = true)).
Proof.
  intros Hinit. destruct (init_spec _ _ _ _ _ Hinit) as (Hk & _ & _ & Hs).
  assert (Hdom : dom (get_available_words_by_pos self) = categories)
    by (rewrite available_words_dom; apply pos_dict0_dom).
  split; [exact Hdom|]. split.
  - intros pos Hpos. rewrite <- Hdom in Hpos. by apply elem_of_dom in Hpos.
  - intros pos words word H Hx.
    destruct (available_words_elem _ _ _ _ H Hx) as [Hv Hid].
    rewrite Hk in Hv.
    destruct (proj1 (Hs _) Hid) as (word' & Hin' & Hid' & Hst').
    split; [done|]. split; [done|]. split; [by exists word'|].
    intros Hunique. by rewrite <- (Hunique word' Hin' Hid').
Qed.

Lemma available_words_five_keys_witness :
  dom (get_available_words_by_pos builder_two_nouns) = categories /\
  (forall pos, pos ∈ categories ->
     exists words, get_available_words_by_pos builder_two_nouns !! pos = Some words) /\
  (forall pos words word,
     get_available_words_by_pos builder_two_nouns !! pos = Some words -> word ∈ words ->
     word ∈ UserKnowledge.vocabulary knowledge_two_nouns /\
     WaniKaniItem.id word ∈ started_vocab builder_two_nouns /\
     (exists word', word' ∈ UserKnowledge.vocabulary knowledge_two_nouns /\
                    WaniKaniItem.id word' = WaniKaniItem.id word /\
                    has_started_at word' = true) /\
     ((forall word', word' ∈ UserKnowledge.vocabulary knowledge_two_nouns ->
                     WaniKaniItem.id word' = WaniKaniItem.id word ->
                     word' = word) ->
      has_started_at word = true)).
Proof.
  apply (available_words_five_keys knowledge_two_nouns "beginner" None None).
  reflexivity.
Defined.

(** C5, counterexample: [inu_locked] carries no ['started_at'] and is in
    the noun list all the same, after the started [inu] whose id it has. *)
Lemma unstarted_item_listed :
  __init__ knowledge_locked_twin "beginner" None None = Ok builder_locked_twin /\
  has_started_at inu_locked = false /\
  get_available_words_by_pos builder_locked_twin !! "noun"
    = Some [inu; inu_locked] /\
  ~ (forall pos words word,
       get_available_words_by_pos builder_locked_twin !! pos = Some words ->
       word ∈ words -> has_started_at word = true).
Proof.
  split; [reflexivity|]. split; [reflexivity|]. split; [reflexivity|].
  intros H.
  assert (Hst : has_started_at inu_locked = true).
  { apply (H "noun" [inu; inu_locked]); [reflexivity|].
    apply list_elem_of_In. simpl. tauto. }
  discriminate Hst.
Qed.

(** With no started vocabulary at all the five lists are empty. *)
Lemma available_words_nothing_started self :
  started_vocab self = ∅ -> get_available_words_by_pos self = pos_dict0.
Proof.
  intros Hs. unfold get_available_words_by_pos. generalize pos_dict0.
  induction (UserKnowledge.vocabulary (knowledge self)) as [|w l IH];
    intros d; simpl; [done|].
  rewrite IH. unfold add_word. rewrite Hs. case_decide as H; [done|].
  by apply not_elem_of_empty in H.
Qed.

(** C9.  For every builder the "adverb" list of
    [get_available_words_by_pos] is empty: [_normalize_pos] never answers
    "adverb", since the tag "adverb" contains "verb" and normalizes to
    "verb". *)
Theorem adverb_bucket_empty (self : SentenceBuilder.t) :
  get_available_words_by_pos self !! "adverb" = Some [] /\
  _normalize_pos "adverb" = "verb" /\
  (forall pos, _normalize_pos pos <> "adverb").
Proof.
  split; [|split; [reflexivity | apply normalize_pos_not_adverb]].
  unfold get_available_words_by_pos.
  transitivity (pos_dict0 !! "adverb"); [|reflexivity].
  generalize pos_dict0.
  induction (UserKnowledge.vocabulary (knowledge self)) as [|w l IH];
    intros d; simpl; [done|].
  by rewrite IH, add_word_adverb.
Qed.

(** C10 (as amended).  The builder decides startedness per id: for every
    id that no vocabulary item carries together with a truthy
    ['started_at'] entry, the id is not in [started_vocab] and no item with
    that id is in any list of [get_available_words_by_pos], whatever the
    [srs_stage] fields hold. *)
Theorem not_started_id_excluded knowledge0 level key getenv self (i : Z) :
  __init__ knowledge0 level key getenv = Ok self ->
  (forall word, word ∈ UserKnowledge.vocabulary knowledge0 ->
                WaniKaniItem.id word = i -> has_started_at word = false) ->
  (i ∉ started_vocab self) /\
  forall pos words word,
    get_available_words_by_pos self !! pos = Some words -> word ∈ words ->
    WaniKaniItem.id word <> i.
Proof.
  intros Hinit Hnone. destruct (init_spec _ _ _ _ _ Hinit) as (_ & _ & _ & Hs).
  assert (Hi : i ∉ started_vocab self).
  { rewrite Hs. intros (w & Hw & Hid & Hst).
    rewrite (Hnone w Hw Hid) in Hst. discriminate. }
  split; [exact Hi|].
  intros pos words word H Hx Hid.
  destruct (available_words_elem _ _ _ _ H Hx) as [_ Hin].
  rewrite Hid in Hin. contradiction.
Qed.

Lemma not_started_id_excluded_witness :
  (2%Z ∉ started_vocab builder_one_started) /\
  forall pos words word,
    get_available_words_by_pos builder_one_started !! pos = Some words ->
    word ∈ words -> WaniKaniItem.id word <> 2%Z.
Proof.
  apply (not_started_id_excluded knowledge_one_started "beginner" None None).
  - reflexivity.
  - intros word Hw Hid. unfold knowledge_one_started in Hw. simpl in Hw.
    repeat (apply elem_of_cons in Hw as [->|Hw]; [try reflexivity; discriminate Hid|]).
    by apply not_elem_of_nil in Hw.
Defined.

(** C10, counterexample: [neko_again] has the empty map and an SRS stage,
    and shares its id with the started [neko]; the id is in
    [started_vocab] and [neko_again] is in the noun list. *)
Lemma shared_id_counts_as_started :
  __init__ knowledge_shared_id "beginner" None None = Ok builder_shared_id /\
  neko_again ∈ UserKnowledge.vocabulary knowledge_shared_id /\
  WaniKaniItem.user_specific_data neko_again = Some ∅ /\
  has_started_at neko_again = false /\
  WaniKaniItem.id neko_again ∈ started_vocab builder_shared_id /\
  get_available_words_by_pos builder_shared_id !! "noun" = Some [neko; neko_again].
Proof.
  split; [reflexivity|]. split; [apply list_elem_of_In; simpl; tauto|].
  split; [reflexivity|]. split; [reflexivity|].
  split; [|reflexivity].
  change (1%Z ∈ ({[ 1%Z ]} : gset Z)). by apply elem_of_singleton.
Qed.

(** ** The grammar tables *)

Section Merge.

Variable table : gmap string (gmap string (gmap string (gmap string string))).

Lemma merge_category_lookup category items elements c :
  merge_category category items elements !! c =
    if decide (category = c)
    then Some (items ∪ default ∅ (elements !! category))
    else elements !! c.
Proof.
  unfold merge_category.
  destruct (elements !! category) as [current|] eqn:E.
  - rewrite E. rewrite lookup_insert. by case_decide.
  - rewrite lookup_insert_eq, insert_insert_eq, lookup_insert. by case_decide.
Qed.

Lemma map_fold_merge_category_lookup elements categories c :
  map_fold merge_category elements categories !! c =
    match categories !! c with
    | Some items => Some (items ∪ default ∅ (elements !! c))
    | None => elements !! c
    end.
Proof.
  revert c.
  apply (map_fold_weak_ind
           (fun r (m : gmap string (gmap string (gmap string string))) =>
              forall c, r !! c =
                match m !! c with
                | Some items => Some (items ∪ default ∅ (elements !! c))
                | None => elements !! c
                end)).
  - intros c. by rewrite lookup_empty.
  - intros i x m r Hi IH c. rewrite merge_category_lookup, lookup_insert.
    case_decide as Hic.
    + subst c. by rewrite (IH i), Hi.
    + apply IH.
Qed.

Lemma merge_level_lookup elements level c :
  merge_level table elements level !! c =
    match tier table level !! c with
    | Some items => Some (items ∪ default ∅ (elements !! c))
    | None => elements !! c
    end.
Proof.
  unfold merge_level, tier. destruct (table !! level) as [categories|]; simpl.
  - apply map_fold_merge_category_lookup.
  - by rewrite lookup_empty.
Qed.

(** The loop of [get_grammar_elements] computes, category by category, the
    union of the requested tier and the beginner tier, the requested tier
    first. *)
Lemma grammar_elements_of_lookup level c :
  grammar_elements_of table level !! c =
    match tier table level !! c, tier table "beginner" !! c with
    | Some requested, Some beginner => Some (requested ∪ beginner)
    | Some requested, None => Some requested
    | None, Some beginner => Some beginner
    | None, None => None
    end.
Proof.
  unfold grammar_elements_of. simpl. rewrite !merge_level_lookup, lookup_empty.
  destruct (tier table level !! c) as [l|], (tier table "beginner" !! c) as [b|];
    simpl; try done.
  - by rewrite (right_id_L ∅ (∪)).
  - by rewrite (right_id_L ∅ (∪)).
  - by rewrite (right_id_L ∅ (∪)).
Qed.

Lemma grammar_elements_of_entry level category key :
  entry (grammar_elements_of table level) category key =
    match entry (tier table level) category key with
    | Some e => Some e
    | None => entry (tier table "beginner") category key
    end.
Proof.
  unfold entry. rewrite grammar_elements_of_lookup.
  destruct (tier table level !! category) as [l|],
           (tier table "beginner" !! category) as [b|]; simpl; try done.
  - rewrite lookup_union. by destruct (l !! key), (b !! key).
  - by destruct (l !! key).
Qed.

Lemma grammar_elements_of_beginner :
  grammar_elements_of table "beginner" = tier table "beginner".
Proof.
  apply map_eq. intros c. rewrite grammar_elements_of_lookup.
  destruct (tier table "beginner" !! c) as [b|]; [|done].
  by rewrite (idemp_L (∪)).
Qed.

End Merge.

Lemma GRAMMAR_ELEMENTS_tiers level :
  level <> "beginner" -> level <> "intermediate" ->
  GRAMMAR_ELEMENTS !! level = None.
Proof.
  intros Hb Hi. unfold GRAMMAR_ELEMENTS.
  rewrite lookup_insert_ne by done. by rewrite lookup_singleton_ne.
Qed.

Lemma tier_categories name category :
  is_Some (tier GRAMMAR_ELEMENTS name !! category) ->
  category = "particles" \/ category = "verb_endings".
Proof.
  intros H.
  destruct (decide (name = "beginner")) as [->|Hb];
    [|destruct (decide (name = "intermediate")) as [->|Hi]].
  - apply elem_of_dom in H.
    assert (E : dom (tier GRAMMAR_ELEMENTS "beginner")
                = ({[ "particles"; "verb_endings" ]} : gset string))
      by (vm_compute; reflexivity).
    rewrite E in H. set_solver.
  - apply elem_of_dom in H.
    assert (E : dom (tier GRAMMAR_ELEMENTS "intermediate")
                = ({[ "particles"; "verb_endings" ]} : gset string))
      by (vm_compute; reflexivity).
    rewrite E in H. set_solver.
  - unfold tier in H. rewrite GRAMMAR_ELEMENTS_tiers in H by done.
    simpl in H. rewrite lookup_empty in H. by destruct H.
Qed.

Lemma GRAMMAR_ELEMENTS_disjoint_keys category :
  category = "particles" \/ category = "verb_endings" ->
  dom (default ∅ (tier GRAMMAR_ELEMENTS "intermediate" !! category))
  ∩ dom (default ∅ (tier GRAMMAR_ELEMENTS "beginner" !! category))
  = (∅ : gset string).
Proof. intros [-> | ->]; vm_compute; reflexivity. Qed.

(** No key of the literal tables occurs in both tiers. *)
Lemma GRAMMAR_ELEMENTS_no_collision category key :
  entry (tier GRAMMAR_ELEMENTS "intermediate") category key = None
  \/ entry (tier GRAMMAR_ELEMENTS "beginner") category key = None.
Proof.
  unfold entry.
  destruct (tier GRAMMAR_ELEMENTS "intermediate" !! category) as [l|] eqn:El;
    [|by left].
  destruct (tier GRAMMAR_ELEMENTS "beginner" !! category) as [b|] eqn:Eb;
    [|by right].
  simpl.
  assert (Hdis : dom l ∩ dom b = ∅).
  { pose proof (GRAMMAR_ELEMENTS_disjoint_keys category) as H.
    rewrite El, Eb in H. apply H.
    apply (tier_categories "intermediate"). by rewrite El. }
  destruct (l !! key) eqn:Hl; [|by left].
  destruct (b !! key) eqn:Hb; [|by right].
  apply elem_of_dom_2 in Hl, Hb.
  assert (key ∈ dom l ∩ dom b) as Hin by (by apply elem_of_intersection).
  rewrite Hdis in Hin. by apply not_elem_of_empty in Hin.
Qed.

(** C6.  With grammar level "intermediate", [get_grammar_elements] holds
    under every category and key the entry of the intermediate tier if
    there is one and else the entry of the beginner tier; so every beginner
    and every intermediate particle and verb ending is in the result.  With
    grammar level "beginner" the result is the beginner tier.  The result
    is a function of the literal tables and of the grammar level alone. *)
Theorem get_grammar_elements_tiers knowledge0 started key :
  let intermediate := SentenceBuilder.mk knowledge0 "intermediate" started key in
  let beginner := SentenceBuilder.mk knowledge0 "beginner" started key in
  (forall category k,
     entry (get_grammar_elements intermediate) category k =
       match entry (tier GRAMMAR_ELEMENTS "intermediate") category k with
       | Some e => Some e
       | None => entry (tier GRAMMAR_ELEMENTS "beginner") category k
       end) /\
  (forall category k e,
     entry (tier GRAMMAR_ELEMENTS "beginner") category k = Some e
     \/ entry (tier GRAMMAR_ELEMENTS "intermediate") category k = Some e ->
     entry (get_grammar_elements intermediate) category k = Some e) /\
  get_grammar_elements beginner = tier GRAMMAR_ELEMENTS "beginner" /\
  (forall self : SentenceBuilder.t,
     get_grammar_elements self
     = grammar_elements_of GRAMMAR_ELEMENTS (grammar_level self)).
Proof.
  intros intermediate beginner.
  assert (Hentry : forall category k,
     entry (get_grammar_elements intermediate) category k =
       match entry (tier GRAMMAR_ELEMENTS "intermediate") category k with
       | Some e => Some e
       | None => entry (tier GRAMMAR_ELEMENTS "beginner") category k
       end)
    by (intros; apply grammar_elements_of_entry).
  split; [exact Hentry|]. split; [|split].
  - intros category k e H. rewrite Hentry.
    destruct (GRAMMAR_ELEMENTS_no_collision category k) as [Hn|Hn];
      destruct H as [H|H]; rewrite ?Hn, ?H; try done;
      rewrite Hn in H; discriminate.
  - apply grammar_elements_of_beginner.
  - reflexivity.
Qed.

(** Whatever the grammar level, the merged particles hold は and を. *)
Lemma particles_wa_wo (self : SentenceBuilder.t) :
  exists particles,
    get_grammar_elements self !! "particles" = Some particles /\
    particles !! "は" = Some wa_info /\ particles !! "を" = Some wo_info.
Proof.
  pose proof (grammar_elements_of_entry GRAMMAR_ELEMENTS (grammar_level self)
                "particles") as H.
  assert (Hc : forall key,
             tier GRAMMAR_ELEMENTS "intermediate" !! "particles" ≫= (.!! key) = None ->
             entry (tier GRAMMAR_ELEMENTS (grammar_level self)) "particles" key = None
             \/ grammar_level self = "beginner").
  { intros key Hk.
    destruct (decide (grammar_level self = "beginner")) as [|Hb]; [by right|].
    left. destruct (decide (grammar_level self = "intermediate")) as [->|Hi];
      [exact Hk|].
    unfold entry, tier. by rewrite GRAMMAR_ELEMENTS_tiers. }
  unfold get_grammar_elements.
  destruct (grammar_elements_of GRAMMAR_ELEMENTS (grammar_level self) !! "particles")
    as [particles|] eqn:E.
  - exists particles. split; [done|].
    pose proof (H "は") as Hwa. pose proof (H "を") as Hwo.
    unfold entry at 1 in Hwa. unfold entry at 1 in Hwo. rewrite E in Hwa, Hwo.
    simpl in Hwa, Hwo.
    split.
    + rewrite Hwa. destruct (Hc "は" eq_refl) as [-> | ->]; reflexivity.
    + rewrite Hwo. destruct (Hc "を" eq_refl) as [-> | ->]; reflexivity.
  - pose proof (H "は") as Hwa. unfold entry at 1 in Hwa. rewrite E in Hwa.
    simpl in Hwa. destruct (Hc "は" eq_refl) as [Hn | Hn]; rewrite Hn in Hwa;
      discriminate.
Qed.

(** ** The template sentence *)

Lemma random_choice_Ok {A} (seq : list A) g x g' :
  random_choice seq g = Ok (x, g') -> x ∈ seq /\ g' = advance g.
Proof.
  destruct seq as [|a seq]; [discriminate|].
  assert (Hin : nth (g 0 mod length (a :: seq)) (a :: seq) a ∈ a :: seq).
  { apply list_elem_of_In, nth_In, Nat.mod_upper_bound. discriminate. }
  unfold random_choice. intros H. injection H as <- <-. by split.
Qed.

Lemma random_choice_nonempty {A} (seq : list A) g :
  seq <> [] -> exists x, random_choice seq g = Ok (x, advance g).
Proof. destruct seq; [done|]. intros _. eexists. reflexivity. Qed.

Lemma available_words_noun_verb self :
  exists nouns verbs,
    get_available_words_by_pos self !! "noun" = Some nouns /\
    get_available_words_by_pos self !! "verb" = Some verbs.
Proof.
  assert (Hn : "noun" ∈ dom (get_available_words_by_pos self)).
  { rewrite available_words_dom. by vm_compute. }
  assert (Hv : "verb" ∈ dom (get_available_words_by_pos self)).
  { rewrite available_words_dom. by vm_compute. }
  apply elem_of_dom in Hn as [nouns Hn]. apply elem_of_dom in Hv as [verbs Hv].
  by exists nouns, verbs.
Qed.

Lemma build_basic_sentence_unfold self g nouns verbs :
  get_available_words_by_pos self !! "noun" = Some nouns ->
  get_available_words_by_pos self !! "verb" = Some verbs ->
  build_basic_sentence self g =
    if bool_decide (nouns = []) then Ok (None, g)
    else if bool_decide (verbs = []) then Ok (None, g)
    else
      '(subject, g) ← random_choice nouns g;
      '(object_, g) ←
         random_choice
           (List.filter (fun n => negb (WaniKaniItem.__eq__ n subject)) nouns) g;
      '(verb, g) ← random_choice verbs g;
      assemble subject object_ verb g.
Proof.
  intros Hn Hv. unfold build_basic_sentence, subscript. rewrite Hn, Hv. simpl.
  destruct (particles_wa_wo self) as (particles & Hp & Hwa & Hwo).
  rewrite Hp. simpl. rewrite Hwa, Hwo. simpl.
  repeat case_bool_decide; try reflexivity.
Qed.

Lemma particle_fields :
  subscript wa_info "characters" = Ok "は" /\
  subscript wa_info "reading" = Ok "wa" /\
  subscript wo_info "characters" = Ok "を" /\
  subscript wo_info "reading" = Ok "o".
Proof. repeat split; vm_compute; reflexivity. Qed.

Lemma assemble_eq subject object_ verb g :
  assemble subject object_ verb g =
    match WaniKaniItem.primary_reading subject,
          WaniKaniItem.primary_reading object_,
          WaniKaniItem.primary_reading verb with
    | Some rs, Some ro, Some rv =>
        Ok (Some (WaniKaniItem.characters subject +:+ "は" +:+
                  WaniKaniItem.characters object_ +:+ "を" +:+
                  WaniKaniItem.characters verb,
                  rs +:+ "wa" +:+ ro +:+ "o" +:+ rv,
                  [Item subject; Dict wa_info; Item object_; Dict wo_info;
                   Item verb]), g)
    | _, _, _ => Raise TypeError
    end.
Proof.
  destruct particle_fields as (Hwc & Hwr & Hoc & Hor).
  unfold assemble, mapM, slot_characters, slot_reading.
  rewrite Hwc, Hwr, Hoc, Hor.
  destruct (WaniKaniItem.primary_reading subject) as [rs|]; [|reflexivity].
  destruct (WaniKaniItem.primary_reading object_) as [ro|]; [|reflexivity].
  destruct (WaniKaniItem.primary_reading verb) as [rv|]; [|reflexivity].
  cbn. by rewrite !string_app_nil_r.
Qed.

Lemma sentence_strings subject object_ verb rs ro rv :
  WaniKaniItem.primary_reading subject = Some rs ->
  WaniKaniItem.primary_reading object_ = Some ro ->
  WaniKaniItem.primary_reading verb = Some rv ->
  (parts ← mapM slot_characters
             [Item subject; Dict wa_info; Item object_; Dict wo_info; Item verb];
   join parts)
  = Ok (WaniKaniItem.characters subject +:+ "は" +:+
        WaniKaniItem.characters object_ +:+ "を" +:+
        WaniKaniItem.characters verb) /\
  (parts ← mapM slot_reading
             [Item subject; Dict wa_info; Item object_; Dict wo_info; Item verb];
   join parts)
  = Ok (rs +:+ "wa" +:+ ro +:+ "o" +:+ rv).
Proof.
  intros Hs Ho Hv. destruct particle_fields as (Hwc & Hwr & Hoc & Hor).
  unfold mapM, slot_characters, slot_reading.
  rewrite Hwc, Hwr, Hoc, Hor, Hs, Ho, Hv. cbn.
  by rewrite !string_app_nil_r.
Qed.

Lemma assemble_Ok subject object_ verb g r g' :
  assemble subject object_ verb g = Ok (r, g') ->
  exists rs ro rv,
    WaniKaniItem.primary_reading subject = Some rs /\
    WaniKaniItem.primary_reading object_ = Some ro /\
    WaniKaniItem.primary_reading verb = Some rv /\
    g' = g /\
    r = Some (WaniKaniItem.characters subject +:+ "は" +:+
              WaniKaniItem.characters object_ +:+ "を" +:+
              WaniKaniItem.characters verb,
              rs +:+ "wa" +:+ ro +:+ "o" +:+ rv,
              [Item subject; Dict wa_info; Item object_; Dict wo_info; Item verb]).
Proof.
  rewrite assemble_eq.
  destruct (WaniKaniItem.primary_reading subject) as [rs|]; [|discriminate].
  destruct (WaniKaniItem.primary_reading object_) as [ro|]; [|discriminate].
  destruct (WaniKaniItem.primary_reading verb) as [rv|]; [|discriminate].
  intros H. injection H as <- <-. by exists rs, ro, rv.
Qed.

Lemma assemble_readings subject object_ verb g rs ro rv :
  WaniKaniItem.primary_reading subject = Some rs ->
  WaniKaniItem.primary_reading object_ = Some ro ->
  WaniKaniItem.primary_reading verb = Some rv ->
  exists r, assemble subject object_ verb g = Ok (Some r, g).
Proof.
  intros Hs Ho Hv. rewrite assemble_eq, Hs, Ho, Hv. eexists. reflexivity.
Qed.

(** ** Equality as the code tests it *)

(** [==] on JSON values, case by case: a bool is equal to its integer, two
    lists are equal item by item, and two dicts are equal when every key
    is bound in both to equal values or in neither. *)
Lemma py_eq_spec (a b : json) : py_eq a b = true <-> canonical a = canonical b.
Proof. unfold py_eq. apply bool_decide_eq_true. Qed.

Lemma py_eq_bool_int (b : bool) (z : Z) :
  py_eq (JBool b) (JInt z) = bool_decide (z = if b then 1 else 0)%Z.
Proof.
  unfold py_eq. simpl. apply bool_decide_ext. split; [by intros [= ->]|by intros ->].
Qed.

Lemma py_eq_arr (l m : list json) :
  py_eq (JArr l) (JArr m) = true <->
  Forall2 (fun a b => py_eq a b = true) l m.
Proof.
  rewrite py_eq_spec. simpl. split.
  - intros [= H]. revert m H. induction l as [|a l IH]; intros [|b m] H;
      try discriminate H; [constructor|].
    injection H as Hab H. constructor; [by apply py_eq_spec | by apply IH].
  - intros H. f_equal. induction H as [|a b l m Hab _ IH]; [done|].
    simpl. apply py_eq_spec in Hab. by rewrite Hab, IH.
Qed.

Lemma canonical_items_lookup (d : list (string * json)) (k : string) :
  (list_to_map (map (fun kv => (kv.1, canonical kv.2)) d) : gmap string json) !! k
  = canonical <$> assoc k d.
Proof.
  induction d as [|[k' v] d IH]; [apply lookup_empty|].
  cbn [map list_to_map foldr assoc fst snd]. case_bool_decide as Hk.
  - subst k'. apply lookup_insert_eq.
  - by rewrite lookup_insert_ne.
Qed.

Lemma py_eq_obj (d e : list (string * json)) :
  py_eq (JObj d) (JObj e) = true <->
  forall k, match assoc k d, assoc k e with
            | Some v, Some w => py_eq v w = true
            | None, None => True
            | _, _ => False
            end.
Proof.
  rewrite py_eq_spec. cbn [canonical]. split.
  - intros [= H] k.
    apply (f_equal (fun l => (list_to_map l : gmap string json) !! k)) in H.
    rewrite !list_to_map_to_list in H.
    rewrite !canonical_items_lookup in H.
    destruct (assoc k d), (assoc k e); try discriminate H; [|done].
    apply py_eq_spec. by injection H.
  - intros H. do 2 f_equal. apply map_eq. intros k.
    rewrite !canonical_items_lookup. specialize (H k).
    destruct (assoc k d), (assoc k e); try done.
    simpl. apply py_eq_spec in H. by rewrite H.
Qed.

(** The [user_specific_data] of two items are equal in [fields] when every
    key is bound in both to [==] values or in neither, which is [==] on
    the two dicts. *)
Lemma data_eq_spec (d e : gmap string json) :
  canonical <$> d = canonical <$> e <->
  forall k, match d !! k, e !! k with
            | Some v, Some w => py_eq v w = true
            | None, None => True
            | _, _ => False
            end.
Proof.
  rewrite map_eq_iff. apply forall_proper; intros k. rewrite !lookup_fmap.
  destruct (d !! k), (e !! k); simpl; rewrite ?py_eq_spec;
    split; try done; [by intros [=] | by intros ->].
Qed.

(** [==] on items is an equivalence, and two items that are not [==] are
    not the same. *)
Lemma item_eq_spec (a b : WaniKaniItem.t) :
  WaniKaniItem.__eq__ a b = true <-> WaniKaniItem.fields a = WaniKaniItem.fields b.
Proof. unfold WaniKaniItem.__eq__. apply bool_decide_eq_true. Qed.

Lemma item_eq_refl (a : WaniKaniItem.t) : WaniKaniItem.__eq__ a a = true.
Proof. by apply item_eq_spec. Qed.

Lemma item_eq_sym (a b : WaniKaniItem.t) :
  WaniKaniItem.__eq__ a b = true -> WaniKaniItem.__eq__ b a = true.
Proof. rewrite !item_eq_spec. congruence. Qed.

Lemma item_eq_trans (a b c : WaniKaniItem.t) :
  WaniKaniItem.__eq__ a b = true -> WaniKaniItem.__eq__ b c = true ->
  WaniKaniItem.__eq__ a c = true.
Proof. rewrite !item_eq_spec. congruence. Qed.

Lemma item_ne_neq (a b : WaniKaniItem.t) :
  WaniKaniItem.__eq__ a b = false -> a ≠ b.
Proof. intros H ->. by rewrite item_eq_refl in H. Qed.

Lemma elem_of_filter_ne (subject x : WaniKaniItem.t) nouns :
  x ∈ List.filter (fun n => negb (WaniKaniItem.__eq__ n subject)) nouns <->
  x ∈ nouns /\ WaniKaniItem.__eq__ x subject = false.
Proof.
  rewrite !list_elem_of_In, filter_In, negb_true_iff. tauto.
Qed.

(** C3.  Whenever [build_basic_sentence] returns a sentence, its items are
    the five slots subject, は, object, を, verb, where subject and object
    are available nouns and verb is an available verb; the Japanese string
    is the concatenation of the slots' characters and the reading string
    the concatenation of the slots' (primary) readings, in slot order; and
    the object differs from the subject (the code compares them with [!=],
    so they are not even equal, let alone the same element). *)
Theorem build_basic_sentence_result self g japanese reading sentence_items g' :
  build_basic_sentence self g = Ok (Some (japanese, reading, sentence_items), g') ->
  exists nouns verbs subject object_ verb rs ro rv,
    get_available_words_by_pos self !! "noun" = Some nouns /\
    get_available_words_by_pos self !! "verb" = Some verbs /\
    subject ∈ nouns /\ object_ ∈ nouns /\ verb ∈ verbs /\
    object_ ≠ subject /\
    sentence_items =
      [Item subject; Dict wa_info; Item object_; Dict wo_info; Item verb] /\
    length sentence_items = 5 /\
    (parts ← mapM slot_characters sentence_items; join parts) = Ok japanese /\
    (parts ← mapM slot_reading sentence_items; join parts) = Ok reading /\
    japanese = WaniKaniItem.characters subject +:+ "は" +:+
               WaniKaniItem.characters object_ +:+ "を" +:+
               WaniKaniItem.characters verb /\
    WaniKaniItem.primary_reading subject = Some rs /\
    WaniKaniItem.primary_reading object_ = Some ro /\
    WaniKaniItem.primary_reading verb = Some rv /\
    reading = rs +:+ "wa" +:+ ro +:+ "o" +:+ rv.
Proof.
  destruct (available_words_noun_verb self) as (nouns & verbs & Hn & Hv).
  rewrite (build_basic_sentence_unfold self g nouns verbs Hn Hv).
  case_bool_decide; [discriminate|]. case_bool_decide; [discriminate|].
  destruct (random_choice nouns g) as [[subject g1]|] eqn:E1; [|discriminate].
  cbn.
  destruct (random_choice (List.filter _ nouns) g1) as [[object_ g2]|] eqn:E2;
    [|discriminate].
  cbn.
  destruct (random_choice verbs g2) as [[verb g3]|] eqn:E3; [|discriminate].
  cbn. intros Ha.
  destruct (assemble_Ok _ _ _ _ _ _ Ha) as (rs & ro & rv & Hrs & Hro & Hrv & _ & Hr).
  injection Hr as -> -> ->.
  apply random_choice_Ok in E1 as [Hsub _], E2 as [Hobj _], E3 as [Hverb _].
  apply elem_of_filter_ne in Hobj as [Hobj Hne%item_ne_neq].
  exists nouns, verbs, subject, object_, verb, rs, ro, rv.
  destruct (sentence_strings subject object_ verb rs ro rv Hrs Hro Hrv)
    as [Hj Hr].
  repeat split; done.
Qed.

Lemma build_basic_sentence_result_witness :
  exists nouns verbs subject object_ verb rs ro rv,
    get_available_words_by_pos builder_two_nouns !! "noun" = Some nouns /\
    get_available_words_by_pos builder_two_nouns !! "verb" = Some verbs /\
    subject ∈ nouns /\ object_ ∈ nouns /\ verb ∈ verbs /\
    object_ ≠ subject /\
    [Item neko; Dict wa_info; Item inu; Dict wo_info; Item taberu] =
      [Item subject; Dict wa_info; Item object_; Dict wo_info; Item verb] /\
    length [Item neko; Dict wa_info; Item inu; Dict wo_info; Item taberu] = 5 /\
    (parts ← mapM slot_characters
               [Item neko; Dict wa_info; Item inu; Dict wo_info; Item taberu];
     join parts) = Ok "猫は犬を食べる" /\
    (parts ← mapM slot_reading
               [Item neko; Dict wa_info; Item inu; Dict wo_info; Item taberu];
     join parts) = Ok "ねこwaいぬoたべる" /\
    "猫は犬を食べる" = WaniKaniItem.characters subject +:+ "は" +:+
               WaniKaniItem.characters object_ +:+ "を" +:+
               WaniKaniItem.characters verb /\
    WaniKaniItem.primary_reading subject = Some rs /\
    WaniKaniItem.primary_reading object_ = Some ro /\
    WaniKaniItem.primary_reading verb = Some rv /\
    "ねこwaいぬoたべる" = rs +:+ "wa" +:+ ro +:+ "o" +:+ rv.
Proof.
  apply (build_basic_sentence_result builder_two_nouns (fun _ => 0)
           "猫は犬を食べる" "ねこwaいぬoたべる" _ (fun _ => 0)).
  vm_compute. reflexivity.
Defined.

(** X1.  [build_basic_sentence] returns a sentence, after three draws,
    when a verb and two nouns [a != b] are available (unequal as the code
    compares them, with the [__eq__] of the dataclass) and the available
    nouns and verbs have primary readings. *)
Lemma build_basic_sentence_returns self g nouns verbs a b :
  get_available_words_by_pos self !! "noun" = Some nouns ->
  get_available_words_by_pos self !! "verb" = Some verbs ->
  a ∈ nouns -> b ∈ nouns -> WaniKaniItem.__eq__ a b = false -> verbs ≠ [] ->
  (forall w, w ∈ nouns ++ verbs -> is_Some (WaniKaniItem.primary_reading w)) ->
  exists r, build_basic_sentence self g = Ok (Some r, advance (advance (advance g))).
Proof.
  intros Hn Hv Ha Hb Hab Hverbs Hread.
  rewrite (build_basic_sentence_unfold self g nouns verbs Hn Hv).
  assert (Hnouns : nouns ≠ []) by (intros ->; by apply not_elem_of_nil in Ha).
  rewrite !bool_decide_eq_false_2 by done.
  destruct (random_choice_nonempty nouns g Hnouns) as [subject E1].
  rewrite E1. cbn.
  assert (Hrest : List.filter (fun n => negb (WaniKaniItem.__eq__ n subject))
                    nouns ≠ []).
  { assert (Hone : exists n, n ∈ nouns /\ WaniKaniItem.__eq__ n subject = false).
    { destruct (WaniKaniItem.__eq__ a subject) eqn:Ea; [|by exists a].
      destruct (WaniKaniItem.__eq__ b subject) eqn:Eb; [|by exists b].
      apply item_eq_sym in Eb.
      by rewrite (item_eq_trans a subject b Ea Eb) in Hab. }
    destruct Hone as (n & Hn' & Hne). intros E.
    assert (Hin : n ∈ List.filter (fun n => negb (WaniKaniItem.__eq__ n subject))
                      nouns) by (by apply elem_of_filter_ne).
    rewrite E in Hin. by apply not_elem_of_nil in Hin. }
  destruct (random_choice_nonempty _ (advance g) Hrest) as [object_ E2].
  rewrite E2. cbn.
  destruct (random_choice_nonempty verbs (advance (advance g)) Hverbs) as [verb E3].
  rewrite E3. cbn.
  apply random_choice_Ok in E1 as [H1 _], E2 as [H2 _], E3 as [H3 _].
  apply elem_of_filter_ne in H2 as [H2 _].
  destruct (Hread subject) as [rs Hrs]; [apply elem_of_app; by left|].
  destruct (Hread object_) as [ro Hro]; [apply elem_of_app; by left|].
  destruct (Hread verb) as [rv Hrv]; [apply elem_of_app; by right|].
  eapply assemble_readings; eauto.
Qed.

(** The explicit "no sentence" result: no noun, or no verb. *)
Lemma build_basic_sentence_none self g nouns verbs :
  get_available_words_by_pos self !! "noun" = Some nouns ->
  get_available_words_by_pos self !! "verb" = Some verbs ->
  nouns = [] \/ verbs = [] ->
  build_basic_sentence self g = Ok (None, g).
Proof.
  intros Hn Hv H.
  rewrite (build_basic_sentence_unfold self g nouns verbs Hn Hv).
  destruct H as [-> | ->]; [done|]. by case_bool_decide.
Qed.

(** No second noun to choose from: [random.choice] of the empty remainder
    raises. *)
Lemma build_basic_sentence_no_second_noun self g nouns verbs :
  get_available_words_by_pos self !! "noun" = Some nouns ->
  get_available_words_by_pos self !! "verb" = Some verbs ->
  nouns ≠ [] -> verbs ≠ [] ->
  (forall a b, a ∈ nouns -> b ∈ nouns -> WaniKaniItem.__eq__ a b = true) ->
  build_basic_sentence self g = Raise IndexError.
Proof.
  intros Hn Hv Hnouns Hverbs Hsame.
  rewrite (build_basic_sentence_unfold self g nouns verbs Hn Hv).
  rewrite !bool_decide_eq_false_2 by done.
  destruct (random_choice_nonempty nouns g Hnouns) as [subject E1].
  rewrite E1. cbn.
  apply random_choice_Ok in E1 as [H1 _].
  assert (Hrest : List.filter (fun n => negb (WaniKaniItem.__eq__ n subject))
                    nouns = []).
  { destruct (List.filter _ nouns) as [|x l] eqn:E; [done|].
    assert (Hx : x ∈ List.filter (fun n => negb (WaniKaniItem.__eq__ n subject))
                     nouns) by (rewrite E; by left).
    apply elem_of_filter_ne in Hx as [Hx Hne].
    by rewrite (Hsame x subject Hx H1) in Hne. }
  by rewrite Hrest.
Qed.

(** Two nouns that are [==] without being the same leave no second noun
    either: [neko_1] and [neko_True] differ in how "started_at" is written,
    as 1 and as [True]. *)
Lemma build_basic_sentence_equal_nouns (g : rng) :
  __init__ knowledge_equal_nouns "beginner" None None = Ok builder_equal_nouns /\
  neko_1 ≠ neko_True /\
  WaniKaniItem.__eq__ neko_1 neko_True = true /\
  get_available_words_by_pos builder_equal_nouns !! "noun"
    = Some [neko_1; neko_True] /\
  build_basic_sentence builder_equal_nouns g = Raise IndexError.
Proof.
  split; [reflexivity|]. split; [discriminate|]. split; [by vm_compute|].
  split; [reflexivity|].
  apply (build_basic_sentence_no_second_noun _ g [neko_1; neko_True]
           [taberu; taberu]); try reflexivity; try discriminate.
  intros a b Ha Hb. apply list_elem_of_In in Ha, Hb. simpl in Ha, Hb.
  destruct Ha as [<-|[<-|[]]], Hb as [<-|[<-|[]]]; by vm_compute.
Qed.

(** C1, the failing input: one started noun and one started verb.  The
    builder is made, its noun list is [[neko]], its verb list is not empty,
    and [build_basic_sentence] raises [IndexError] whatever the draws. *)
Theorem build_basic_sentence_one_noun_raises (g : rng) :
  __init__ knowledge_one_noun "beginner" None None = Ok builder_one_noun /\
  get_available_words_by_pos builder_one_noun !! "noun" = Some [neko] /\
  get_available_words_by_pos builder_one_noun !! "verb" = Some [taberu; taberu] /\
  build_basic_sentence builder_one_noun g = Raise IndexError.
Proof.
  split; [reflexivity|]. split; [reflexivity|]. split; [reflexivity|].
  apply (build_basic_sentence_no_second_noun _ g [neko] [taberu; taberu]);
    try reflexivity; try discriminate.
  intros a b Ha Hb. apply list_elem_of_singleton in Ha, Hb. subst.
  apply item_eq_refl.
Qed.

(** ** The assignment join *)

(** A record without a started timestamp leaves the mapping as it is,
    whatever its SRS stage. *)
Lemma assignment_lookup_step_skip lookup a :
  Assignment.is_started a = false ->
  WaniKaniAPI.assignment_lookup_step lookup a = Ok lookup.
Proof. unfold WaniKaniAPI.assignment_lookup_step. by intros ->. Qed.

Lemma started_vocab_step_skip started a :
  Assignment.is_started a = false ->
  Main.started_vocab_step started a = Ok started.
Proof. unfold Main.started_vocab_step. by intros ->. Qed.

Lemma assignment_lookup_step_other lookup a lookup' s :
  WaniKaniAPI.assignment_lookup_step lookup a = Ok lookup' ->
  (Assignment.subject_id a = s -> Assignment.is_started a = false) ->
  lookup' !! s = lookup !! s.
Proof.
  unfold WaniKaniAPI.assignment_lookup_step. intros H Hs.
  destruct (Assignment.is_started a) eqn:E.
  - destruct (Assignment.srs_stage a); [|discriminate]. injection H as <-.
    apply lookup_insert_ne. intros Heq. by specialize (Hs Heq).
  - by injection H as <-.
Qed.

Lemma started_vocab_step_other started a started' s :
  Main.started_vocab_step started a = Ok started' ->
  (Assignment.subject_id a = s -> Assignment.is_started a = false) ->
  started' !! s = started !! s.
Proof.
  unfold Main.started_vocab_step. intros H Hs.
  destruct (Assignment.is_started a) eqn:E.
  - destruct (Assignment.subject_type a); [|discriminate].
    case_bool_decide; injection H as <-; [|done].
    apply lookup_insert_ne. intros Heq. by specialize (Hs Heq).
  - by injection H as <-.
Qed.

Lemma foldM_lookup_other (step : gmap Z Z -> Assignment.t -> outcome (gmap Z Z))
    (s : Z) :
  (forall m a m', step m a = Ok m' ->
     (Assignment.subject_id a = s -> Assignment.is_started a = false) ->
     m' !! s = m !! s) ->
  forall assignments m m',
    foldM step assignments m = Ok m' ->
    (forall a, a ∈ assignments -> Assignment.subject_id a = s ->
               Assignment.is_started a = false) ->
    m' !! s = m !! s.
Proof.
  intros Hstep. induction assignments as [|a l IH]; intros m m'; simpl.
  - by intros [= <-].
  - destruct (step m a) as [m1|] eqn:E; [|discriminate]. simpl. intros H Hall.
    rewrite (IH _ _ H) by (intros; apply Hall; [by right | done]).
    apply (Hstep _ _ _ E). apply Hall. by left.
Qed.

Lemma vocab_items_elem started vocab_response vocab_items w :
  w ∈ foldl (Main.vocab_items_step started) vocab_items vocab_response ->
  w ∈ vocab_items \/
  exists item, item ∈ vocab_response /\ WaniKaniItem.id w = Subject.id item /\
               started !! Subject.id item = WaniKaniItem.srs_stage w /\
               is_Some (WaniKaniItem.srs_stage w).
Proof.
  revert vocab_items.
  induction vocab_response as [|item l IH]; intros vocab_items; simpl; [by left|].
  intros H. destruct (IH _ H) as [Hin|(item' & Hin & ?)].
  - unfold Main.vocab_items_step in Hin.
    destruct (started !! Subject.id item) as [stage|] eqn:E; [|by left].
    apply elem_of_app in Hin as [Hin|Hin]; [by left|].
    apply list_elem_of_singleton in Hin as ->. right. exists item.
    split; [by left|]. simpl. by rewrite E.
  - right. exists item'. split; [by right | done].
Qed.

(** C2 (as amended).  For a subject id all of whose progress records lack
    a started timestamp, whatever SRS stages these records hold: the id is
    not a key of the assignment lookup of [get_user_knowledge], so the items
    made for it have no SRS stage; and the id is not a key of the started
    mapping of [fetch_vocabulary], so no item with this id is in the
    started vocabulary. *)
Theorem unstarted_subject_excluded (assignments : list Assignment.t) (s : Z) :
  (forall a, a ∈ assignments -> Assignment.subject_id a = s ->
             Assignment.is_started a = false) ->
  (forall lookup, WaniKaniAPI.assignment_lookup assignments = Ok lookup ->
                  lookup !! s = None) /\
  (forall user_level vocab_data kanji_data knowledge0,
     WaniKaniAPI.get_user_knowledge user_level assignments vocab_data kanji_data
       = Ok knowledge0 ->
     forall w, w ∈ UserKnowledge.vocabulary knowledge0 ++ UserKnowledge.kanji knowledge0 ->
               WaniKaniItem.id w = s -> WaniKaniItem.srs_stage w = None) /\
  (forall started, Main.started_vocab assignments = Ok started ->
                   started !! s = None) /\
  (forall vocab_response vocab_items,
     Main.fetch_vocabulary vocab_response assignments = Ok vocab_items ->
     forall w, w ∈ vocab_items -> WaniKaniItem.id w <> s).
Proof.
  intros Hall.
  assert (H1 : forall lookup, WaniKaniAPI.assignment_lookup assignments = Ok lookup ->
                              lookup !! s = None).
  { intros lookup H.
    rewrite (foldM_lookup_other _ s (fun m a m' => assignment_lookup_step_other m a m' s)
               _ _ _ H Hall).
    apply lookup_empty. }
  assert (H2 : forall started, Main.started_vocab assignments = Ok started ->
                               started !! s = None).
  { intros started H.
    rewrite (foldM_lookup_other _ s (fun m a m' => started_vocab_step_other m a m' s)
               _ _ _ H Hall).
    apply lookup_empty. }
  split; [exact H1|]. split; [|split; [exact H2|]].
  - intros user_level vocab_data kanji_data knowledge0.
    unfold WaniKaniAPI.get_user_knowledge.
    destruct (WaniKaniAPI.assignment_lookup assignments) as [lookup|] eqn:E;
      [|discriminate].
    cbn. intros [= <-] w Hw Hid. cbn in Hw.
    apply elem_of_app in Hw as [Hw|Hw];
      apply list_elem_of_fmap in Hw as (v & -> & _);
      cbn in Hid; cbn; rewrite Hid; by apply H1.
  - intros vocab_response vocab_items. unfold Main.fetch_vocabulary.
    destruct (Main.started_vocab assignments) as [started|] eqn:E; [|discriminate].
    cbn. intros [= <-] w Hw Hid.
    apply vocab_items_elem in Hw as [Hw|(item & _ & Hi & Hst & Hsome)].
    + by apply not_elem_of_nil in Hw.
    + rewrite <- Hi, Hid, (H2 _ eq_refl) in Hst. rewrite <- Hst in Hsome.
      by destruct Hsome.
Qed.

Lemma unstarted_subject_excluded_witness :
  (forall lookup,
     WaniKaniAPI.assignment_lookup [assignment_7_locked; assignment_8_started]
       = Ok lookup -> lookup !! 7%Z = None) /\
  (forall user_level vocab_data kanji_data knowledge0,
     WaniKaniAPI.get_user_knowledge user_level
       [assignment_7_locked; assignment_8_started] vocab_data kanji_data
       = Ok knowledge0 ->
     forall w, w ∈ UserKnowledge.vocabulary knowledge0 ++ UserKnowledge.kanji knowledge0 ->
               WaniKaniItem.id w = 7%Z -> WaniKaniItem.srs_stage w = None) /\
  (forall started,
     Main.started_vocab [assignment_7_locked; assignment_8_started] = Ok started ->
     started !! 7%Z = None) /\
  (forall vocab_response vocab_items,
     Main.fetch_vocabulary vocab_response [assignment_7_locked; assignment_8_started]
       = Ok vocab_items ->
     forall w, w ∈ vocab_items -> WaniKaniItem.id w <> 7%Z).
Proof.
  apply (unstarted_subject_excluded [assignment_7_locked; assignment_8_started] 7).
  intros a Ha Hid.
  apply elem_of_cons in Ha as [->|Ha]; [reflexivity|].
  apply list_elem_of_singleton in Ha as ->. discriminate Hid.
Defined.

(** C2, counterexample: two progress records of subject 7, the first
    without a started timestamp, the second with one.  The id of the first
    record is a key of both mappings, its item receives an SRS stage, and
    it is in the started vocabulary. *)
Lemma unstarted_record_subject_started :
  Assignment.started_at assignment_7_locked = None /\
  Assignment.subject_id assignment_7_locked = 7%Z /\
  WaniKaniAPI.assignment_lookup [assignment_7_locked; assignment_7_started]
    = Ok {[ 7%Z := 3%Z ]} /\
  (k ← WaniKaniAPI.get_user_knowledge 1 [assignment_7_locked; assignment_7_started]
         [subject_7] [];
   Ok (map (fun w => (WaniKaniItem.id w, WaniKaniItem.srs_stage w))
         (UserKnowledge.vocabulary k)))
    = Ok [(7%Z, Some 3%Z)] /\
  Main.started_vocab [assignment_7_locked; assignment_7_started]
    = Ok {[ 7%Z := 3%Z ]} /\
  (items ← Main.fetch_vocabulary [subject_7]
             [assignment_7_locked; assignment_7_started];
   Ok (map WaniKaniItem.id items)) = Ok [7%Z].
Proof. repeat split; reflexivity. Qed.

(** ** The cache *)

Section CacheProperties.

Variable json_dump : json -> string.
Variable json_load : string -> outcome json.
Variable isoformat : Z -> string.
Variable fromisoformat : string -> outcome WaniKaniAPI.datetime.

Abbreviation load_cache := (WaniKaniAPI.load_cache json_load fromisoformat).
Abbreviation save_cache := (WaniKaniAPI.save_cache json_dump isoformat).

(** Run [load_cache] up to the reading of the file [Hfile], then through
    each step whose result is given. *)
Ltac read_cache Hfile :=
  unfold WaniKaniAPI.load_cache, WaniKaniAPI.open_; rewrite Hfile; cbn.
Ltac then_ Hstep := rewrite Hstep; cbn.

Lemma load_cache_missing files now filename max_age_hours :
  files !! WaniKaniAPI.cache_path filename = None ->
  load_cache files now filename max_age_hours = Ok JNull.
Proof.
  intros H. by read_cache H.
Qed.

Lemma load_cache_unparseable files now filename max_age_hours text e :
  files !! WaniKaniAPI.cache_path filename = Some text ->
  json_load text = Raise e -> isinstance e ValueError = true ->
  load_cache files now filename max_age_hours = Ok JNull.
Proof.
  intros H Hl He. read_cache H. then_ Hl. rewrite He. by rewrite !orb_true_r.
Qed.

Lemma load_cache_no_timestamp files now filename max_age_hours text d :
  files !! WaniKaniAPI.cache_path filename = Some text ->
  json_load text = Ok (JObj d) -> assoc "timestamp" d = None ->
  load_cache files now filename max_age_hours = Ok JNull.
Proof.
  intros H Hl Ht. read_cache H. then_ Hl. by rewrite Ht.
Qed.

Lemma load_cache_bad_timestamp files now filename max_age_hours text d s e :
  files !! WaniKaniAPI.cache_path filename = Some text ->
  json_load text = Ok (JObj d) -> assoc "timestamp" d = Some (JStr s) ->
  fromisoformat s = Raise e -> isinstance e ValueError = true ->
  load_cache files now filename max_age_hours = Ok JNull.
Proof.
  intros H Hl Ht Hf He. read_cache H. then_ Hl. then_ Ht. then_ Hf.
  rewrite He. by rewrite !orb_true_r.
Qed.

(** A well-formed envelope: [None] when too old, else the data, and [None]
    again when there is no data. *)
Lemma load_cache_envelope files now filename max_age_hours text d s t :
  files !! WaniKaniAPI.cache_path filename = Some text ->
  json_load text = Ok (JObj d) -> assoc "timestamp" d = Some (JStr s) ->
  fromisoformat s = Ok (WaniKaniAPI.Naive t) ->
  load_cache files now filename max_age_hours =
    if WaniKaniAPI.too_old (now - t) max_age_hours then Ok JNull
    else match assoc "data" d with
         | Some data => Ok data
         | None => Ok JNull
         end.
Proof.
  intros H Hl Ht Hf. read_cache H. then_ Hl. then_ Ht. then_ Hf.
  destruct (WaniKaniAPI.too_old _ _); [done|]. by destruct (assoc "data" d).
Qed.

(** Saving and then loading, given that the library functions invert each
    other: the data comes back unless the test finds the age in hours
    above the maximum, and [None] comes back then. *)
Lemma save_load_cache files saved now data filename max_age_hours :
  (forall v, json_load (json_dump v) = Ok v) ->
  (forall t, fromisoformat (isoformat t) = Ok (WaniKaniAPI.Naive t)) ->
  load_cache (save_cache files saved data filename) now filename max_age_hours =
    if WaniKaniAPI.too_old (now - saved) max_age_hours then Ok JNull
    else Ok data.
Proof.
  intros Hjson Hiso.
  rewrite (load_cache_envelope _ now filename max_age_hours
             (json_dump (JObj [("timestamp", JStr (isoformat saved));
                               ("data", data)]))
             [("timestamp", JStr (isoformat saved)); ("data", data)]
             (isoformat saved) saved).
  - done.
  - unfold WaniKaniAPI.save_cache. apply lookup_insert_eq.
  - apply Hjson.
  - reflexivity.
  - apply Hiso.
Qed.

(** C7, the failing input: the cache file parses to an envelope that has
    no "data" key and whose "timestamp" is not a string (say the number 5).
    [fromisoformat] then raises [TypeError], which the [except] clause of
    [load_cache] does not list: the call raises instead of returning
    [None]. *)
Theorem load_cache_timestamp_not_str files now filename max_age_hours text :
  files !! WaniKaniAPI.cache_path filename = Some text ->
  json_load text = Ok (JObj [("timestamp", JInt 5)]) ->
  assoc "data" [("timestamp", JInt 5)] = None /\
  load_cache files now filename max_age_hours = Raise TypeError.
Proof.
  intros H Hl. split; [reflexivity|]. read_cache H. by rewrite Hl.
Qed.

(** Other contents that end in [TypeError]: a document that is not an
    object, and a timestamp with an offset from UTC. *)
Lemma load_cache_not_an_object files now filename max_age_hours text v :
  files !! WaniKaniAPI.cache_path filename = Some text ->
  json_load text = Ok v -> (forall d, v <> JObj d) ->
  load_cache files now filename max_age_hours = Raise TypeError.
Proof.
  intros H Hl Hv. read_cache H. then_ Hl.
  destruct v; try reflexivity. by destruct (Hv d).
Qed.

Lemma load_cache_aware_timestamp files now filename max_age_hours text d s t off :
  files !! WaniKaniAPI.cache_path filename = Some text ->
  json_load text = Ok (JObj d) -> assoc "timestamp" d = Some (JStr s) ->
  fromisoformat s = Ok (WaniKaniAPI.Aware t off) ->
  load_cache files now filename max_age_hours = Raise TypeError.
Proof.
  intros H Hl Ht Hf. read_cache H. then_ Hl. then_ Ht. by rewrite Hf.
Qed.

End CacheProperties.

(** The test of the age is made in floating point.  With the default of
    24 hours, 24 hours exactly are not too old and a microsecond more is;
    with 8388608 hours a microsecond more is lost in the rounding of
    [total_seconds], and four microseconds are not. *)
Lemma too_old_samples :
  WaniKaniAPI.too_old (24 * 3600 * 1000000) 24 = false /\
  WaniKaniAPI.too_old (24 * 3600 * 1000000 + 1) 24 = true /\
  WaniKaniAPI.too_old (8388608 * 3600 * 1000000 + 1) 8388608 = false /\
  WaniKaniAPI.too_old (8388608 * 3600 * 1000000 + 4) 8388608 = true.
Proof. by vm_compute. Qed.

Lemma load_cache_timestamp_not_str_witness :
  assoc "data" [("timestamp", JInt 5)] = None /\
  WaniKaniAPI.load_cache
    (fun text => if bool_decide (text = "{ timestamp: 5 }")
                 then Ok (JObj [("timestamp", JInt 5)])
                 else Raise JSONDecodeError)
    (fun s => Raise ValueError)
    {[ WaniKaniAPI.cache_path "knowledge_cache_abcd1234" := "{ timestamp: 5 }" ]}
    0 "knowledge_cache_abcd1234" 24 = Raise TypeError.
Proof.
  apply (load_cache_timestamp_not_str _ _ _ 0%Z "knowledge_cache_abcd1234" 24%Z
           "{ timestamp: 5 }").
  - reflexivity.
  - reflexivity.
Defined.

(** ** Items made by [get_user_knowledge] *)

(** A subject record without [user_specific_data] becomes an item with the
    empty map: not started for the builder, whatever its SRS stage. *)
Lemma convert_attaches_empty_map raw_data srs_stage :
  Subject.user_specific_data raw_data = None ->
  WaniKaniItem.user_specific_data
    (WaniKaniAPI._convert_to_wanikani_item raw_data srs_stage) = Some ∅ /\
  WaniKaniItem.srs_stage
    (WaniKaniAPI._convert_to_wanikani_item raw_data srs_stage) = srs_stage /\
  has_started_at (WaniKaniAPI._convert_to_wanikani_item raw_data srs_stage) = false.
Proof.
  intros H. unfold has_started_at, WaniKaniAPI._convert_to_wanikani_item. simpl.
  by rewrite H.
Qed.

(** The builder is made whenever every item has a map (and only then). *)
Lemma init_total knowledge0 level key getenv :
  (forall word, word ∈ UserKnowledge.vocabulary knowledge0 ->
                is_Some (WaniKaniItem.user_specific_data word)) ->
  exists self, __init__ knowledge0 level key getenv = Ok self.
Proof.
  intros Hall. unfold __init__, _initialize_started_vocab.
  assert (H : forall started, exists started',
             foldM _initialize_started_vocab_step
               (UserKnowledge.vocabulary knowledge0) started = Ok started').
  { induction (UserKnowledge.vocabulary knowledge0) as [|w l IH]; intros started.
    - by eexists.
    - simpl. unfold _initialize_started_vocab_step at 1.
      destruct (Hall w) as [d ->]; [by left|].
      destruct (truthy_opt (d !! "started_at")); simpl;
        apply IH; intros; apply Hall; by right. }
  destruct (H ∅) as [started' ->]. by eexists.
Qed.

(** A snapshot of [get_user_knowledge] whose subject records carry no
    [user_specific_data]: the builder is made and nothing is started, so
    the five lists are empty. *)
Lemma get_user_knowledge_nothing_started
    user_level assignments vocab_data kanji_data knowledge0 level key getenv :
  WaniKaniAPI.get_user_knowledge user_level assignments vocab_data kanji_data
    = Ok knowledge0 ->
  (forall v, v ∈ vocab_data -> Subject.user_specific_data v = None) ->
  exists self,
    __init__ knowledge0 level key getenv = Ok self /\
    started_vocab self = ∅ /\
    get_available_words_by_pos self = pos_dict0.
Proof.
  unfold WaniKaniAPI.get_user_knowledge.
  destruct (WaniKaniAPI.assignment_lookup assignments) as [lookup|]; [|discriminate].
  cbn. intros H Hnone. injection H as <-.
  assert (Hitems : forall w,
            w ∈ map (fun v => WaniKaniAPI._convert_to_wanikani_item v
                                (lookup !! Subject.id v)) vocab_data ->
            WaniKaniItem.user_specific_data w = Some ∅ /\ has_started_at w = false).
  { intros w Hw. apply list_elem_of_fmap in Hw as (v & -> & Hv).
    destruct (convert_attaches_empty_map v (lookup !! Subject.id v) (Hnone v Hv))
      as (? & _ & ?). by split. }
  destruct (init_total (UserKnowledge.mk
              (map (fun v => WaniKaniAPI._convert_to_wanikani_item v
                               (lookup !! Subject.id v)) vocab_data)
              (map (fun k => WaniKaniAPI._convert_to_wanikani_item k
                               (lookup !! Subject.id k)) kanji_data)
              user_level) level key getenv) as [self Hself].
  { cbn. intros w Hw. destruct (Hitems w Hw) as [-> _]. by eexists. }
  exists self. split; [exact Hself|].
  assert (Hempty : started_vocab self = ∅).
  { destruct (init_spec _ _ _ _ _ Hself) as (_ & _ & _ & Hs).
    apply set_eq. intros i. rewrite Hs. split.
    - intros (w & Hw & _ & Hst). cbn in Hw.
      destruct (Hitems w Hw) as [_ Hf]. rewrite Hf in Hst. discriminate.
    - intros Hi. by apply not_elem_of_empty in Hi. }
  split; [exact Hempty|]. by apply available_words_nothing_started.
Qed.

(** ** Sentences from the language model *)

Lemma try_except_Exception {A} (body : outcome A) handler :
  try_except body [Exception] handler =
    match body with
    | Ok a => Ok a
    | Raise e => handler e
    end.
Proof.
  destruct body as [a|e]; [done|]. unfold try_except. simpl.
  unfold isinstance. by rewrite orb_true_r.
Qed.

Lemma init_openai_api_key knowledge0 level key getenv self :
  __init__ knowledge0 level key getenv = Ok self ->
  truthy_str (openai_api_key self) = truthy_str key || truthy_str getenv.
Proof.
  intros H. destruct (init_spec _ _ _ _ _ H) as (_ & _ & -> & _).
  unfold or_. by destruct (truthy_str key) eqn:E.
Qed.

(** C8.  [generate_sentence_with_gpt] raises exactly when the builder has
    no API key (neither the argument nor the environment gave a non-empty
    one).  With a key, a failure of the request, an empty list of choices,
    a missing content, a reply that [json.loads] rejects and a reply
    without the "sentences" key all end in the empty list; otherwise the
    value under "sentences" is returned. *)
Theorem generate_sentence_raises_iff_no_key
    (json_loads : string -> outcome json) (self : SentenceBuilder.t)
    (num_sentences : Z) (create : outcome (list (option string))) :
  let result := generate_sentence_with_gpt json_loads self num_sentences create in
  ((exists e, result = Raise e) <-> truthy_str (openai_api_key self) = false) /\
  (truthy_str (openai_api_key self) = false -> result = Raise ValueError) /\
  (truthy_str (openai_api_key self) = true ->
     (forall e, create = Raise e -> result = Ok (JArr [])) /\
     (create = Ok [] -> result = Ok (JArr [])) /\
     (forall rest, create = Ok (None :: rest) -> result = Ok (JArr [])) /\
     (forall text rest e,
        create = Ok (Some text :: rest) -> json_loads text = Raise e ->
        result = Ok (JArr [])) /\
     (forall text rest reply e,
        create = Ok (Some text :: rest) -> json_loads text = Ok reply ->
        getitem reply "sentences" = Raise e -> result = Ok (JArr [])) /\
     (forall text rest reply sentences,
        create = Ok (Some text :: rest) -> json_loads text = Ok reply ->
        getitem reply "sentences" = Ok sentences -> result = Ok sentences)) /\
  (forall knowledge0 level key getenv,
     __init__ knowledge0 level key getenv = Ok self ->
     truthy_str (openai_api_key self) = truthy_str key || truthy_str getenv).
Proof.
  intros result. subst result.
  assert (Hinit : forall knowledge0 level key getenv,
            __init__ knowledge0 level key getenv = Ok self ->
            truthy_str (openai_api_key self) = truthy_str key || truthy_str getenv)
    by (intros; by eapply init_openai_api_key).
  split; [|split; [|split; [|exact Hinit]]]; clear Hinit;
    unfold generate_sentence_with_gpt; rewrite try_except_Exception;
    destruct (truthy_str (openai_api_key self)) eqn:Hkey; simpl.
  - split; [|discriminate]. intros [e He]. exfalso.
    destruct create as [[|[text|] rest]|e']; cbn in He; try discriminate.
    destruct (json_loads text) as [reply|e']; cbn in He; [|discriminate].
    destruct (getitem reply "sentences"); discriminate.
  - split; [done|]. intros _. by exists ValueError.
  - discriminate.
  - done.
  - intros _. repeat split.
    + by intros e ->.
    + by intros ->.
    + by intros rest ->.
    + intros text rest e -> He. cbn. by rewrite He.
    + intros text rest reply e -> Hl Hg. cbn. rewrite Hl. cbn. by rewrite Hg.
    + intros text rest reply sentences -> Hl Hg. cbn. rewrite Hl. cbn.
      by rewrite Hg.
  - discriminate.
Qed.

(** * Further properties *)

(** ** SRS stages *)

Lemma srs_stage_value_inj (stage1 stage2 : SrsStage.t) :
  SrsStage.value stage1 = SrsStage.value stage2 -> stage1 = stage2.
Proof. destruct stage1, stage2; simpl; intros H; try reflexivity; discriminate H. Qed.

Lemma srs_stage_name_Some (v : WaniKaniItem.t) (stage : SrsStage.t) :
  WaniKaniItem.srs_stage_name v = Some (SrsStage.value stage) <->
  exists n, WaniKaniItem.srs_stage v = Some n /\ stage_covers stage n.
Proof.
  unfold WaniKaniItem.srs_stage_name.
  destruct (WaniKaniItem.srs_stage v) as [n|].
  - split.
    + intros H. exists n. split; [done|].
      destruct stage; repeat case_bool_decide; simpl in H;
        try discriminate H; simpl; lia.
    + intros (m & Hm & Hc). injection Hm as <-.
      destruct stage; simpl in Hc; repeat case_bool_decide;
        try reflexivity; lia.
  - split; [discriminate|]. by intros (n & Hn & _).
Qed.

Lemma srs_stage_name_None (v : WaniKaniItem.t) :
  WaniKaniItem.srs_stage_name v = None <->
  forall n, WaniKaniItem.srs_stage v = Some n -> (n < 1 \/ 9 < n)%Z.
Proof.
  unfold WaniKaniItem.srs_stage_name.
  destruct (WaniKaniItem.srs_stage v) as [n|]; [|by split].
  split.
  - intros H m Hm. injection Hm as <-.
    repeat case_bool_decide; try discriminate H; lia.
  - intros H. specialize (H n eq_refl).
    repeat case_bool_decide; try reflexivity; lia.
Qed.

Lemma filter_length_split {A} (p : A -> bool) (l : list A) :
  length l = length (List.filter p l) + length (List.filter (fun x => negb (p x)) l).
Proof.
  induction l as [|x l IH]; [done|]. simpl. destruct (p x); simpl; lia.
Qed.

Lemma srs_stage_name_cases (v : WaniKaniItem.t) :
  WaniKaniItem.srs_stage_name v = None \/
  exists stage, WaniKaniItem.srs_stage_name v = Some (SrsStage.value stage).
Proof.
  unfold WaniKaniItem.srs_stage_name.
  destruct (WaniKaniItem.srs_stage v); [|by left].
  repeat case_bool_decide; eauto.
Qed.

Lemma filter_cons_length {A} (p : A -> bool) (x : A) (l : list A) :
  length (List.filter p (x :: l)) = (if p x then 1 else 0) + length (List.filter p l).
Proof. simpl. by destruct (p x). Qed.

(** X2.  The five SRS lists of [get_vocab_by_srs] split the vocabulary: an item
    is in the list of a stage exactly when its [srs_stage] is a number that
    the stage covers; no item is in two lists; an item without stage, or
    with a stage outside 1..9 (such as 0), is in none; and the lengths add
    up. *)
Theorem get_vocab_by_srs_partition (self : UserKnowledge.t) :
  (forall stage v,
     v ∈ UserKnowledge.get_vocab_by_srs self stage <->
     v ∈ UserKnowledge.vocabulary self /\
     exists n, WaniKaniItem.srs_stage v = Some n /\ stage_covers stage n) /\
  (forall stage1 stage2 v,
     v ∈ UserKnowledge.get_vocab_by_srs self stage1 ->
     v ∈ UserKnowledge.get_vocab_by_srs self stage2 -> stage1 = stage2) /\
  length (UserKnowledge.vocabulary self) =
    length (UserKnowledge.get_vocab_by_srs self SrsStage.APPRENTICE)
    + length (UserKnowledge.get_vocab_by_srs self SrsStage.GURU)
    + length (UserKnowledge.get_vocab_by_srs self SrsStage.MASTER)
    + length (UserKnowledge.get_vocab_by_srs self SrsStage.ENLIGHTENED)
    + length (UserKnowledge.get_vocab_by_srs self SrsStage.BURNED)
    + length (List.filter
                (fun v => bool_decide (WaniKaniItem.srs_stage_name v = None))
                (UserKnowledge.vocabulary self)).
Proof.
  assert (Hspec : forall stage v,
     v ∈ UserKnowledge.get_vocab_by_srs self stage <->
     v ∈ UserKnowledge.vocabulary self /\
     exists n, WaniKaniItem.srs_stage v = Some n /\ stage_covers stage n).
  { intros stage v. unfold UserKnowledge.get_vocab_by_srs.
    rewrite !list_elem_of_In, filter_In, bool_decide_eq_true.
    by rewrite srs_stage_name_Some. }
  split; [exact Hspec|]. split.
  - intros stage1 stage2 v [_ (n & Hn & H1)]%Hspec [_ (m & Hm & H2)]%Hspec.
    rewrite Hn in Hm. injection Hm as <-.
    destruct stage1, stage2; simpl in H1, H2; try reflexivity; lia.
  - clear Hspec. unfold UserKnowledge.get_vocab_by_srs.
    induction (UserKnowledge.vocabulary self) as [|v l IH]; [done|].
    rewrite !filter_cons_length. cbn [length].
    destruct (srs_stage_name_cases v) as [Hv|[stage Hv]]; rewrite Hv;
      [|destruct stage];
      repeat match goal with
             | |- context [bool_decide (?a = ?b)] =>
                 first [ rewrite (bool_decide_eq_true_2 (a = b)) by reflexivity
                       | rewrite (bool_decide_eq_false_2 (a = b))
                           by (cbn; discriminate) ]
             end;
      lia.
Qed.

(** ** Construction of the builder, again *)

Lemma foldM_started_vocab_raise vocabulary started e :
  foldM _initialize_started_vocab_step vocabulary started = Raise e ->
  e = AttributeError /\
  exists word, word ∈ vocabulary /\ WaniKaniItem.user_specific_data word = None.
Proof.
  revert started. induction vocabulary as [|w l IH]; intros started; [discriminate|].
  simpl. unfold _initialize_started_vocab_step at 1.
  destruct (WaniKaniItem.user_specific_data w) as [d|] eqn:E.
  - destruct (truthy_opt (d !! "started_at")); simpl; intros H;
      destruct (IH _ H) as (-> & w' & Hw' & Hn); (split; [done|]);
      exists w'; (split; [by right | done]).
  - simpl. intros H. injection H as <-. split; [done|]. exists w. by split; [left|].
Qed.

(** X3.  [SentenceBuilder(...)] raises exactly when some vocabulary item has no
    [user_specific_data] at all ([None], the default of the field), and
    then it is [AttributeError]; the grammar level and the keys play no
    part in it. *)
Theorem init_raises_iff_no_metadata knowledge0 level key getenv :
  (forall e, __init__ knowledge0 level key getenv = Raise e ->
             e = AttributeError) /\
  ((exists e, __init__ knowledge0 level key getenv = Raise e) <->
   exists word, word ∈ UserKnowledge.vocabulary knowledge0 /\
                WaniKaniItem.user_specific_data word = None).
Proof.
  assert (Hraise : forall e, __init__ knowledge0 level key getenv = Raise e ->
            e = AttributeError /\
            exists word, word ∈ UserKnowledge.vocabulary knowledge0 /\
                         WaniKaniItem.user_specific_data word = None).
  { intros e. unfold __init__, _initialize_started_vocab.
    destruct (foldM _ _ _) as [s|e'] eqn:E; [discriminate|].
    simpl. intros H. injection H as <-. by eapply foldM_started_vocab_raise. }
  split; [intros e He; by destruct (Hraise e He)|]. split.
  - intros [e He]. by destruct (Hraise e He).
  - intros (word & Hin & Hnone).
    destruct (__init__ knowledge0 level key getenv) as [self|e] eqn:E; [|eauto].
    exfalso. unfold __init__, _initialize_started_vocab in E.
    destruct (foldM _ _ _) as [s|e'] eqn:Ef; [|discriminate]. clear E.
    revert Ef. generalize (∅ : gset Z).
    induction (UserKnowledge.vocabulary knowledge0) as [|w l IH]; intros s0.
    + by apply not_elem_of_nil in Hin.
    + simpl. unfold _initialize_started_vocab_step at 1.
      apply elem_of_cons in Hin as [<-|Hin].
      * by rewrite Hnone.
      * destruct (WaniKaniItem.user_specific_data w) as [d|]; [|discriminate].
        destruct (truthy_opt (d !! "started_at")); simpl; by apply IH.
Qed.

(** ** The part-of-speech lists, exactly *)

Lemma add_pos_lookup word pos_dict pos c :
  add_pos word pos_dict pos !! c =
    (fun words => words ++ if decide (_normalize_pos pos = c) then [word] else [])
      <$> pos_dict !! c.
Proof.
  unfold add_pos. destruct (pos_dict !! _normalize_pos pos) as [l|] eqn:E.
  - rewrite lookup_insert. case_decide as Hc.
    + subst c. by rewrite E.
    + destruct (pos_dict !! c); simpl; [|done]. by rewrite app_nil_r.
  - case_decide as Hc.
    + subst c. by rewrite E.
    + destruct (pos_dict !! c); simpl; [|done]. by rewrite app_nil_r.
Qed.

Lemma foldl_add_pos_lookup word tags pos_dict c :
  foldl (add_pos word) pos_dict tags !! c =
    (fun words =>
       words ++ flat_map (fun pos => if decide (_normalize_pos pos = c)
                                     then [word] else []) tags)
      <$> pos_dict !! c.
Proof.
  revert pos_dict. induction tags as [|pos tags IH]; intros d; simpl.
  - destruct (d !! c); simpl; [|done]. by rewrite app_nil_r.
  - rewrite IH, add_pos_lookup. destruct (d !! c); simpl; [|done].
    by rewrite <- app_assoc.
Qed.

Lemma foldl_add_word_lookup self vocabulary pos_dict c :
  foldl (add_word self) pos_dict vocabulary !! c =
    (fun words =>
       words ++ flat_map (fun word => if decide (WaniKaniItem.id word ∈ started_vocab self)
                                      then copies_of c word else []) vocabulary)
      <$> pos_dict !! c.
Proof.
  revert pos_dict. induction vocabulary as [|w l IH]; intros d; simpl.
  - destruct (d !! c); simpl; [|done]. by rewrite app_nil_r.
  - rewrite IH. unfold add_word. case_decide as Hn.
    + rewrite decide_False by done. by destruct (d !! c).
    + rewrite decide_True by done. rewrite foldl_add_pos_lookup.
      destruct (d !! c); simpl; [|done]. unfold copies_of.
      by rewrite <- app_assoc.
Qed.

(** X4.  The list that [get_available_words_by_pos] binds to a category is the
    comprehension [words_under]: the started words in vocabulary order,
    each as many times as it has tags normalizing to the category; a key
    that is no category is not bound. *)
Theorem available_words_exactly (self : SentenceBuilder.t) (category : string) :
  get_available_words_by_pos self !! category =
    if decide (category ∈ categories) then Some (words_under self category)
    else None.
Proof.
  unfold get_available_words_by_pos. rewrite foldl_add_word_lookup.
  case_decide as Hc.
  - unfold categories in Hc. rewrite <- pos_dict0_dom in Hc.
    apply elem_of_dom in Hc as [ws Hws]. rewrite Hws. simpl.
    destruct ws as [|x ws]; [done|].
    exfalso. eapply (pos_dict0_elem category (x :: ws) x); [done | by left].
  - unfold categories in Hc. rewrite <- pos_dict0_dom in Hc.
    apply not_elem_of_dom in Hc. by rewrite Hc.
Qed.

(** X5.  A started word tagged "adverb" is listed under "verb", from where the
    template sentence draws its verb. *)
Theorem adverb_listed_as_verb (self : SentenceBuilder.t) (word : WaniKaniItem.t) :
  word ∈ UserKnowledge.vocabulary (knowledge self) ->
  WaniKaniItem.id word ∈ started_vocab self ->
  "adverb" ∈ WaniKaniItem.parts_of_speech word ->
  exists verbs, get_available_words_by_pos self !! "verb" = Some verbs /\
                word ∈ verbs.
Proof.
  intros Hin Hid Htag.
  apply (available_words_complete self word "adverb" Hin Hid Htag).
  by vm_compute.
Qed.

Lemma adverb_listed_as_verb_witness :
  exists verbs,
    get_available_words_by_pos builder_with_adverb !! "verb" = Some verbs /\
    hayaku ∈ verbs.
Proof.
  apply (adverb_listed_as_verb builder_with_adverb hayaku).
  - apply list_elem_of_In. simpl. tauto.
  - change (4%Z ∈ ({[ 1%Z; 4%Z ]} : gset Z)). set_solver.
  - apply list_elem_of_In. simpl. tauto.
Defined.

(** ** Grammar levels outside the table *)

(** X6.  Any grammar level other than "intermediate" -- "beginner", or a level
    that [GRAMMAR_ELEMENTS] does not have, which the loop skips without a
    word -- gives the beginner tier. *)
Theorem get_grammar_elements_other_level (self : SentenceBuilder.t) :
  grammar_level self <> "intermediate" ->
  get_grammar_elements self = tier GRAMMAR_ELEMENTS "beginner".
Proof.
  intros Hi. unfold get_grammar_elements.
  destruct (decide (grammar_level self = "beginner")) as [->|Hb].
  - apply grammar_elements_of_beginner.
  - apply map_eq. intros c. rewrite grammar_elements_of_lookup.
    unfold tier at 1. rewrite GRAMMAR_ELEMENTS_tiers by done. simpl.
    rewrite lookup_empty. by destruct (tier GRAMMAR_ELEMENTS "beginner" !! c).
Qed.

Lemma get_grammar_elements_other_level_witness :
  get_grammar_elements builder_advanced = tier GRAMMAR_ELEMENTS "beginner".
Proof.
  apply (get_grammar_elements_other_level builder_advanced). discriminate.
Defined.

(** ** What the template sentence raises *)

(** X7.  [build_basic_sentence] raises nothing but [IndexError] and [TypeError]:
    [IndexError] when nouns and verbs are available but every available
    noun is [==] to the subject drawn (by the [__eq__] of the dataclass,
    for which [True == 1]), and [TypeError] when an available noun or verb
    has no primary reading. *)
Theorem build_basic_sentence_raises self g e :
  build_basic_sentence self g = Raise e ->
  exists nouns verbs,
    get_available_words_by_pos self !! "noun" = Some nouns /\
    get_available_words_by_pos self !! "verb" = Some verbs /\
    nouns <> [] /\ verbs <> [] /\
    ((e = IndexError /\
      exists subject, subject ∈ nouns /\
        forall n, n ∈ nouns -> WaniKaniItem.__eq__ n subject = true) \/
     (e = TypeError /\
      exists word, word ∈ nouns ++ verbs /\
                   WaniKaniItem.primary_reading word = None)).
Proof.
  destruct (available_words_noun_verb self) as (nouns & verbs & Hn & Hv).
  rewrite (build_basic_sentence_unfold self g nouns verbs Hn Hv).
  case_bool_decide as Hnouns; [discriminate|].
  case_bool_decide as Hverbs; [discriminate|].
  intros H. exists nouns, verbs. do 4 (split; [done|]).
  destruct (random_choice_nonempty nouns g Hnouns) as [subject E1].
  rewrite E1 in H. cbn in H.
  apply random_choice_Ok in E1 as [Hsub _].
  destruct (List.filter (fun n => negb (WaniKaniItem.__eq__ n subject)) nouns)
    as [|o rest] eqn:Ef.
  { left. cbn in H. injection H as <-. split; [done|]. exists subject.
    split; [done|]. intros n Hin.
    destruct (WaniKaniItem.__eq__ n subject) eqn:Hne; [done|].
    assert (Hx : n ∈ List.filter (fun n => negb (WaniKaniItem.__eq__ n subject))
                     nouns) by (by apply elem_of_filter_ne).
    rewrite Ef in Hx. by apply not_elem_of_nil in Hx. }
  right.
  destruct (random_choice_nonempty (o :: rest) (advance g)) as [object_ E2];
    [done|].
  rewrite E2 in H. cbn in H.
  destruct (random_choice_nonempty verbs (advance (advance g)) Hverbs) as [verb E3].
  rewrite E3 in H.
  change (assemble subject object_ verb (advance (advance (advance g))) = Raise e)
    in H.
  rewrite assemble_eq in H.
  apply random_choice_Ok in E2 as [Hobj _], E3 as [Hverb _].
  assert (Hobj' : object_ ∈ nouns).
  { rewrite <- Ef in Hobj. by apply elem_of_filter_ne in Hobj as [? _]. }
  destruct (WaniKaniItem.primary_reading subject) eqn:Rs;
    [|injection H as <-; split; [done|]; exists subject; split;
      [apply elem_of_app; by left | done]].
  destruct (WaniKaniItem.primary_reading object_) eqn:Ro;
    [|injection H as <-; split; [done|]; exists object_; split;
      [apply elem_of_app; by left | done]].
  destruct (WaniKaniItem.primary_reading verb) eqn:Rv; [discriminate|].
  injection H as <-. split; [done|]. exists verb. split;
    [apply elem_of_app; by right | done].
Qed.

Lemma build_basic_sentence_raises_witness :
  exists nouns verbs,
    get_available_words_by_pos builder_no_reading !! "noun" = Some nouns /\
    get_available_words_by_pos builder_no_reading !! "verb" = Some verbs /\
    nouns <> [] /\ verbs <> [] /\
    ((TypeError = IndexError /\
      exists subject, subject ∈ nouns /\
        forall n, n ∈ nouns -> WaniKaniItem.__eq__ n subject = true) \/
     (TypeError = TypeError /\
      exists word, word ∈ nouns ++ verbs /\
                   WaniKaniItem.primary_reading word = None)).
Proof.
  apply (build_basic_sentence_raises builder_no_reading (fun _ => 0) TypeError).
  vm_compute. reflexivity.
Defined.

(** ** The two mappings from subject id to SRS stage, exactly *)

Lemma foldM_raise_iff {A S} (step : S -> A -> outcome S) (bad : A -> bool)
    (e0 : exn) :
  (forall s a, if bad a then step s a = Raise e0 else exists s', step s a = Ok s') ->
  forall l s e,
    foldM step l s = Raise e <-> e = e0 /\ exists a, a ∈ l /\ bad a = true.
Proof.
  intros Hstep. induction l as [|a l IH]; intros s e; simpl.
  - split; [discriminate|]. intros (_ & a & Ha & _). by apply not_elem_of_nil in Ha.
  - pose proof (Hstep s a) as Ha. destruct (bad a) eqn:Hb.
    + rewrite Ha. simpl. split.
      * intros H. injection H as <-. split; [done|]. exists a. by split; [left|].
      * by intros [-> _].
    + destruct Ha as [s' ->]. simpl. rewrite IH. split.
      * intros (-> & a' & Hin & Hbad). split; [done|]. exists a'. by split; [right|].
      * intros (-> & a' & Hin & Hbad). split; [done|]. exists a'. split; [|done].
        apply elem_of_cons in Hin as [->|Hin]; [congruence | done].
Qed.

Lemma last_filter_cons {A} (p : A -> bool) (a : A) (l : list A) :
  last (List.filter p (a :: l)) =
    match last (List.filter p l) with
    | Some x => Some x
    | None => if p a then Some a else None
    end.
Proof.
  simpl. destruct (p a); [|by destruct (last (List.filter p l))].
  by rewrite last_cons.
Qed.

Lemma assignment_lookup_last assignments lookup0 lookup s :
  foldM WaniKaniAPI.assignment_lookup_step assignments lookup0 = Ok lookup ->
  lookup !! s =
    match last (List.filter (writes_lookup s) assignments) with
    | Some a => Assignment.srs_stage a
    | None => lookup0 !! s
    end.
Proof.
  revert lookup0. induction assignments as [|a l IH]; intros m0.
  - simpl. by intros [= <-].
  - rewrite last_filter_cons. cbn [foldM].
    destruct (WaniKaniAPI.assignment_lookup_step m0 a) as [m1|] eqn:E;
      [|discriminate].
    intros H. rewrite (IH m1 H).
    destruct (last (List.filter (writes_lookup s) l)); [done|].
    unfold WaniKaniAPI.assignment_lookup_step in E. unfold writes_lookup.
    destruct (Assignment.is_started a); simpl.
    + destruct (Assignment.srs_stage a) as [stage|] eqn:Es; [|discriminate].
      injection E as <-. rewrite lookup_insert.
      case_decide as Hid;
        [rewrite bool_decide_eq_true_2 by done; by rewrite Es
        |by rewrite bool_decide_eq_false_2].
    + by injection E as <-.
Qed.

Lemma assignment_lookup_Ok assignments lookup s :
  WaniKaniAPI.assignment_lookup assignments = Ok lookup ->
  lookup !! s = last (List.filter (writes_lookup s) assignments)
                  ≫= Assignment.srs_stage.
Proof.
  intros H. rewrite (assignment_lookup_last _ _ _ s H). by destruct (last _).
Qed.

Lemma assignment_lookup_Raise assignments e :
  WaniKaniAPI.assignment_lookup assignments = Raise e <->
  e = KeyError /\
  exists a, a ∈ assignments /\ Assignment.is_started a = true /\
            Assignment.srs_stage a = None.
Proof.
  unfold WaniKaniAPI.assignment_lookup.
  rewrite (foldM_raise_iff WaniKaniAPI.assignment_lookup_step
             (fun a => Assignment.is_started a
                       && bool_decide (Assignment.srs_stage a = None)) KeyError).
  - split; intros (-> & a & Hin & H); (split; [done|]); exists a;
      (split; [done|]).
    + apply andb_true_iff in H as [? ?%bool_decide_eq_true]. by split.
    + destruct H as [-> ->]. reflexivity.
  - intros m a. unfold WaniKaniAPI.assignment_lookup_step.
    destruct (Assignment.is_started a); simpl; [|eauto].
    destruct (Assignment.srs_stage a); simpl; eauto.
Qed.

(** X8.  The assignment lookup of [get_user_knowledge], exactly.  It raises
    [KeyError] when some started record has no "srs_stage", and nothing
    else; otherwise every subject id is bound to the SRS stage of its last
    started record (a later record replaces an earlier one), and is unbound
    when it has none. *)
Theorem assignment_lookup_exactly (assignments : list Assignment.t) :
  (forall lookup s,
     WaniKaniAPI.assignment_lookup assignments = Ok lookup ->
     lookup !! s = last (List.filter (writes_lookup s) assignments)
                     ≫= Assignment.srs_stage) /\
  (forall e,
     WaniKaniAPI.assignment_lookup assignments = Raise e <->
     e = KeyError /\
     exists a, a ∈ assignments /\ Assignment.is_started a = true /\
               Assignment.srs_stage a = None).
Proof.
  split.
  - intros lookup s. apply assignment_lookup_Ok.
  - apply assignment_lookup_Raise.
Qed.

Lemma started_vocab_last assignments started0 started s :
  foldM Main.started_vocab_step assignments started0 = Ok started ->
  started !! s =
    match last (List.filter (writes_started_vocab s) assignments) with
    | Some a => Some (default 0%Z (Assignment.srs_stage a))
    | None => started0 !! s
    end.
Proof.
  revert started0. induction assignments as [|a l IH]; intros m0.
  - simpl. by intros [= <-].
  - rewrite last_filter_cons. cbn [foldM].
    destruct (Main.started_vocab_step m0 a) as [m1|] eqn:E; [|discriminate].
    intros H. rewrite (IH m1 H).
    destruct (last (List.filter (writes_started_vocab s) l)); [done|].
    unfold Main.started_vocab_step in E. unfold writes_started_vocab.
    destruct (Assignment.is_started a); simpl; [|by injection E as <-].
    destruct (Assignment.subject_type a) as [ty|]; [|discriminate].
    destruct (decide (ty = "vocabulary")) as [->|Hty].
    + rewrite bool_decide_eq_true_2 in E by done. injection E as <-.
      rewrite bool_decide_eq_true_2 by done. simpl.
      rewrite lookup_insert.
      case_decide as Hid;
        [by rewrite bool_decide_eq_true_2 | by rewrite bool_decide_eq_false_2].
    + rewrite bool_decide_eq_false_2 in E by done. injection E as <-.
      rewrite bool_decide_eq_false_2 by congruence. done.
Qed.

(** X9.  The mapping of [fetch_vocabulary], exactly.  It raises [KeyError] when
    some started record has no "subject_type", and nothing else; otherwise
    a subject id is bound when it has a started record of type
    "vocabulary", to the SRS stage of the last such record, and to 0 when
    that record has no "srs_stage". *)
Theorem started_vocab_exactly (assignments : list Assignment.t) :
  (forall started s,
     Main.started_vocab assignments = Ok started ->
     started !! s =
       (fun a => default 0%Z (Assignment.srs_stage a))
         <$> last (List.filter (writes_started_vocab s) assignments)) /\
  (forall e,
     Main.started_vocab assignments = Raise e <->
     e = KeyError /\
     exists a, a ∈ assignments /\ Assignment.is_started a = true /\
               Assignment.subject_type a = None).
Proof.
  split.
  - intros started s H. rewrite (started_vocab_last _ _ _ s H).
    by destruct (last _).
  - intros e. unfold Main.started_vocab.
    rewrite (foldM_raise_iff Main.started_vocab_step
               (fun a => Assignment.is_started a
                         && bool_decide (Assignment.subject_type a = None)) KeyError).
    + split; intros (-> & a & Hin & H); (split; [done|]); exists a;
        (split; [done|]).
      * apply andb_true_iff in H as [? ?%bool_decide_eq_true]. by split.
      * destruct H as [-> ->]. reflexivity.
    + intros m a. unfold Main.started_vocab_step.
      destruct (Assignment.is_started a); simpl; [|eauto].
      destruct (Assignment.subject_type a); simpl; [|done].
      case_bool_decide; eauto.
Qed.

(** ** From the fetched records to the builder *)

Lemma vocab_items_flat_map started vocab_response vocab_items :
  foldl (Main.vocab_items_step started) vocab_items vocab_response =
    vocab_items ++
    flat_map (fun item => match started !! Subject.id item with
                          | Some stage => [fetched_item item stage]
                          | None => []
                          end) vocab_response.
Proof.
  revert vocab_items. induction vocab_response as [|item l IH]; intros acc; simpl.
  - by rewrite app_nil_r.
  - rewrite IH. unfold Main.vocab_items_step.
    destruct (started !! Subject.id item); [|done].
    by rewrite <- app_assoc.
Qed.

Lemma fetched_items_started (started : gmap Z Z) vocab_response w :
  w ∈ flat_map (fun item => match started !! Subject.id item with
                            | Some stage => [fetched_item item stage]
                            | None => []
                            end) vocab_response ->
  WaniKaniItem.user_specific_data w = Some {[ "started_at" := JStr "2024-01-01" ]}
  /\ is_Some (WaniKaniItem.srs_stage w) /\ has_started_at w = true.
Proof.
  rewrite list_elem_of_In, in_flat_map. intros (item & _ & Hw).
  destruct (started !! Subject.id item) as [stage|]; [|done].
  destruct Hw as [<-|[]]. split; [reflexivity|]. split; [by eexists | reflexivity].
Qed.

(** X10.  Every item that [fetch_vocabulary] returns carries the "started_at"
    entry and an SRS stage, the items come in the order of the subject
    records whose id is a key of the started mapping, and a builder on
    them (as [generate_sentences] makes it, with no kanji and level 3)
    is made without error and counts exactly the ids of these items as
    started. *)
Theorem fetch_vocabulary_all_started vocab_response assignments vocab_items
    level key getenv :
  Main.fetch_vocabulary vocab_response assignments = Ok vocab_items ->
  (forall w, w ∈ vocab_items ->
     WaniKaniItem.user_specific_data w = Some {[ "started_at" := JStr "2024-01-01" ]}
     /\ is_Some (WaniKaniItem.srs_stage w)) /\
  (exists started,
     Main.started_vocab assignments = Ok started /\
     map WaniKaniItem.id vocab_items =
       List.filter (fun i => bool_decide (is_Some (started !! i)))
         (map Subject.id vocab_response)) /\
  exists self,
    __init__ (UserKnowledge.mk vocab_items [] 3) level key getenv = Ok self /\
    forall i, i ∈ started_vocab self <->
              exists w, w ∈ vocab_items /\ WaniKaniItem.id w = i.
Proof.
  unfold Main.fetch_vocabulary.
  destruct (Main.started_vocab assignments) as [started|] eqn:E; [|discriminate].
  intros H. cbn in H. injection H as <-. rewrite vocab_items_flat_map. cbn [app].
  split; [|split].
  - intros w Hw. by destruct (fetched_items_started _ _ _ Hw) as (? & ? & _).
  - exists started. split; [done|].
    induction vocab_response as [|item l IH]; [done|]. cbn [flat_map map List.filter].
    rewrite map_app, IH.
    destruct (started !! Subject.id item) as [stage|]; [|done].
    by rewrite bool_decide_eq_true_2 by by eexists.
  - match goal with
    | |- context [__init__ ?k _ _ _] =>
        destruct (init_total k level key getenv) as [self Hs]
    end.
    { cbn. intros w Hw. destruct (fetched_items_started _ _ _ Hw) as (-> & _).
      by eexists. }
    exists self. split; [done|]. intros i.
    destruct (init_spec _ _ _ _ _ Hs) as (_ & _ & _ & ->). cbn.
    split; intros (w & Hw & Hid); exists w; (split; [done|]).
    + by destruct Hid.
    + split; [done|]. by destruct (fetched_items_started _ _ _ Hw) as (_ & _ & ?).
Qed.

Lemma fetch_vocabulary_all_started_witness :
  (forall w, w ∈ [fetched_item subject_7 3] ->
     WaniKaniItem.user_specific_data w = Some {[ "started_at" := JStr "2024-01-01" ]}
     /\ is_Some (WaniKaniItem.srs_stage w)) /\
  (exists started,
     Main.started_vocab [assignment_7_locked; assignment_7_started] = Ok started /\
     map WaniKaniItem.id [fetched_item subject_7 3] =
       List.filter (fun i => bool_decide (is_Some (started !! i)))
         (map Subject.id [subject_7])) /\
  exists self,
    __init__ (UserKnowledge.mk [fetched_item subject_7 3] [] 3) "beginner"
      (Some "sk-sample") None = Ok self /\
    forall i, i ∈ started_vocab self <->
              exists w, w ∈ [fetched_item subject_7 3] /\ WaniKaniItem.id w = i.
Proof.
  apply (fetch_vocabulary_all_started [subject_7]
           [assignment_7_locked; assignment_7_started]).
  reflexivity.
Defined.

(** X11.  A snapshot of [get_user_knowledge] whose subject records carry no
    [user_specific_data] (the service sends none): the builder is made,
    nothing counts as started, and [build_basic_sentence] answers [None]
    without drawing, whatever SRS stages the assignments gave. *)
Theorem get_user_knowledge_builds_no_sentence
    user_level assignments vocab_data kanji_data knowledge0 level key getenv g :
  WaniKaniAPI.get_user_knowledge user_level assignments vocab_data kanji_data
    = Ok knowledge0 ->
  (forall v, v ∈ vocab_data -> Subject.user_specific_data v = None) ->
  exists self,
    __init__ knowledge0 level key getenv = Ok self /\
    started_vocab self = ∅ /\
    build_basic_sentence self g = Ok (None, g).
Proof.
  intros Hk Hnone.
  destruct (get_user_knowledge_nothing_started _ _ _ _ _ level key getenv Hk Hnone)
    as (self & Hself & Hempty & Hwords).
  exists self. split; [done|]. split; [done|].
  apply (build_basic_sentence_none self g [] []); [by rewrite Hwords..|by left].
Qed.

Lemma get_user_knowledge_builds_no_sentence_witness :
  exists self,
    __init__ (UserKnowledge.mk
                [WaniKaniAPI._convert_to_wanikani_item subject_7 (Some 3%Z)] [] 1)
      "beginner" None None = Ok self /\
    started_vocab self = ∅ /\
    build_basic_sentence self (fun _ => 0) = Ok (None, fun _ => 0).
Proof.
  apply (get_user_knowledge_builds_no_sentence 1 [assignment_7_started]
           [subject_7] []).
  - reflexivity.
  - intros v Hv. apply list_elem_of_singleton in Hv as ->. reflexivity.
Defined.

(** ** Pagination *)

Lemma url_not_empty (base_url endpoint : string) :
  base_url +:+ "/" +:+ endpoint <> "".
Proof.
  destruct base_url as [|c base_url].
  - intros H. cbv in H. discriminate H.
  - rewrite app_cons. discriminate.
Qed.

Section Pagination.

Context {A : Type}.
Variable get : string -> outcome (Response.t A).

Lemma make_request_loop_pages endpoint url pages :
  endpoint <> "user" ->
  pages_from get url pages ->
  forall fuel results sleeps,
    length pages <= fuel ->
    WaniKaniAPI._make_request_loop A get fuel endpoint url results sleeps
    = Some (Ok (WaniKaniAPI.Collected (results ++ all_records pages),
                sleeps + length pages)).
Proof.
  intros Hend Hpages.
  induction Hpages as [url Hurl|u data rest Hu Hget _ IH];
    intros fuel results sleeps Hfuel.
  - unfold all_records. simpl. rewrite app_nil_r, Nat.add_0_r.
    destruct url as [u|]; destruct fuel; simpl; try done.
    + simpl in Hurl. apply negb_false_iff in Hurl. by rewrite Hurl.
    + simpl in Hurl. apply negb_false_iff in Hurl. by rewrite Hurl.
  - destruct fuel as [|fuel]; [simpl in Hfuel; lia|].
    simpl. rewrite bool_decide_eq_false_2 by done. rewrite Hget.
    rewrite bool_decide_eq_false_2 by done.
    rewrite IH by (simpl in Hfuel; lia).
    unfold all_records. simpl. do 3 f_equal.
    + destruct (Response.data data); simpl; [by rewrite <- app_assoc|done].
    + lia.
Qed.

(** X12.  [_make_request] on a collection endpoint whose pages end: it returns
    the records of all pages in order, after one half-second sleep per
    page, as soon as the loop is given as many turns as there are pages. *)
Theorem make_request_collects base_url endpoint pages fuel :
  endpoint <> "user" ->
  pages_from get (Some (base_url +:+ "/" +:+ endpoint)) pages ->
  length pages <= fuel ->
  WaniKaniAPI._make_request A get fuel base_url endpoint
  = Some (Ok (WaniKaniAPI.Collected (all_records pages), length pages)).
Proof.
  intros Hend Hpages Hfuel. unfold WaniKaniAPI._make_request.
  by rewrite (make_request_loop_pages endpoint _ pages Hend Hpages).
Qed.

(** X13.  A failing request ends [_make_request] with the error of that request:
    the records of the pages before it are not returned. *)
Theorem make_request_page_fails base_url endpoint pages e fuel :
  endpoint <> "user" ->
  fails_after get (Some (base_url +:+ "/" +:+ endpoint)) pages e ->
  length pages < fuel ->
  WaniKaniAPI._make_request A get fuel base_url endpoint = Some (Raise e).
Proof.
  intros Hend Hfail. unfold WaniKaniAPI._make_request.
  generalize (@nil A) as results. generalize 0 as sleeps. revert fuel.
  induction Hfail as [u e Hu Hget|u data rest e Hu Hget _ IH];
    intros fuel sleeps results Hfuel;
    (destruct fuel as [|fuel]; [simpl in Hfuel; lia|]); simpl;
    rewrite bool_decide_eq_false_2 by done; rewrite Hget; [done|].
  rewrite bool_decide_eq_false_2 by done. apply IH. simpl in Hfuel. lia.
Qed.

(** X14.  A page that names itself as the next page keeps the loop going for
    ever: no number of turns makes [_make_request] return or raise. *)
Theorem make_request_never_ends endpoint u data :
  endpoint <> "user" -> u <> "" ->
  get u = Ok data -> Response.next_url data = Some u ->
  forall fuel results sleeps,
    WaniKaniAPI._make_request_loop A get fuel endpoint (Some u) results sleeps
    = None.
Proof.
  intros Hend Hu Hget Hnext. induction fuel as [|fuel IH]; intros results sleeps.
  - simpl. by rewrite bool_decide_eq_false_2.
  - simpl. rewrite bool_decide_eq_false_2 by done. rewrite Hget.
    rewrite bool_decide_eq_false_2 by done. rewrite Hnext. apply IH.
Qed.

(** The endpoint "user": one request, whose response is returned as it is;
    a next-page link in it is not followed and nothing is slept. *)
Lemma make_request_user base_url fuel data :
  get (base_url +:+ "/" +:+ "user") = Ok data ->
  WaniKaniAPI._make_request A get (S fuel) base_url "user"
  = Some (Ok (WaniKaniAPI.Direct data, 0)).
Proof.
  intros Hget. unfold WaniKaniAPI._make_request. cbn [WaniKaniAPI._make_request_loop].
  rewrite bool_decide_eq_false_2 by apply url_not_empty.
  rewrite Hget. by rewrite bool_decide_eq_true_2.
Qed.

End Pagination.

Lemma make_request_collects_witness :
  WaniKaniAPI._make_request Z two_pages 5 "https://api" "subjects"
  = Some (Ok (WaniKaniAPI.Collected (all_records [page_1; page_2]),
              length [page_1; page_2])).
Proof.
  apply (make_request_collects two_pages "https://api" "subjects" [page_1; page_2] 5).
  - discriminate.
  - apply pages_more; [discriminate | reflexivity |].
    apply pages_more; [discriminate | reflexivity |].
    apply pages_done. reflexivity.
  - simpl. lia.
Defined.

Lemma make_request_page_fails_witness :
  WaniKaniAPI._make_request Z second_page_fails 5 "https://api" "subjects"
  = Some (Raise ValueError).
Proof.
  apply (make_request_page_fails second_page_fails "https://api" "subjects"
           [page_1] ValueError 5).
  - discriminate.
  - apply fails_later; [discriminate | reflexivity |].
    apply fails_here; [discriminate | reflexivity].
  - simpl. lia.
Defined.

Lemma make_request_never_ends_witness :
  WaniKaniAPI._make_request_loop Z same_page_again 1000 "subjects"
    (Some "https://api/subjects") [] 0 = None.
Proof.
  apply (make_request_never_ends same_page_again "subjects"
           "https://api/subjects" page_loop);
    [discriminate | discriminate | reflexivity | reflexivity].
Defined.

(** ** What [load_cache] raises *)

(** X15.  If [json.load] and [fromisoformat] raise nothing but [ValueError] (or
    a class derived from it), then [load_cache] raises nothing but
    [TypeError]: a missing file, a key that is not there and a value
    error never leave it. *)
Theorem load_cache_raises_only_TypeError
    (json_load : string -> outcome json)
    (fromisoformat : string -> outcome WaniKaniAPI.datetime)
    files now filename max_age_hours e :
  (forall text e', json_load text = Raise e' -> isinstance e' ValueError = true) ->
  (forall s e', fromisoformat s = Raise e' -> isinstance e' ValueError = true) ->
  WaniKaniAPI.load_cache json_load fromisoformat files now filename max_age_hours
    = Raise e ->
  e = TypeError.
Proof.
  intros Hjson Hiso. unfold WaniKaniAPI.load_cache, WaniKaniAPI.open_.
  destruct (files !! WaniKaniAPI.cache_path filename) as [text|]; [|discriminate].
  cbn. destruct (json_load text) as [cache_data|e1] eqn:El.
  - cbn. destruct cache_data as [| | | | |d]; cbn;
      try (intros H; by injection H as <-).
    destruct (assoc "timestamp" d) as [timestamp|]; [|discriminate]. cbn.
    destruct timestamp as [| | |s| |]; cbn; try (intros H; by injection H as <-).
    destruct (fromisoformat s) as [cache_time|e2] eqn:Ef.
    + cbn. destruct cache_time as [t|t off]; cbn;
        [|intros H; by injection H as <-].
      destruct (WaniKaniAPI.too_old _ _); [discriminate|].
      destruct (assoc "data" d); discriminate.
    + cbn. rewrite (Hiso _ _ Ef). by rewrite !orb_true_r.
  - cbn. rewrite (Hjson _ _ El). by rewrite !orb_true_r.
Qed.

Lemma load_cache_raises_only_TypeError_witness : TypeError = TypeError.
Proof.
  apply (load_cache_raises_only_TypeError
           (fun text => if bool_decide (text = "{ timestamp: 5 }")
                        then Ok (JObj [("timestamp", JInt 5)])
                        else Raise JSONDecodeError)
           (fun s => Raise ValueError)
           {[ WaniKaniAPI.cache_path "knowledge_cache_abcd1234" := "{ timestamp: 5 }" ]}
           0 "knowledge_cache_abcd1234" 24 TypeError).
  - intros text e'. case_bool_decide; [discriminate|]. by intros [= <-].
  - intros s e'. by intros [= <-].
  - reflexivity.
Defined.

(** ** The snapshot of [get_user_knowledge] *)

Lemma convert_all_ids (lookup : gmap Z Z) (records : list Subject.t) :
  map WaniKaniItem.id
    (map (fun v => WaniKaniAPI._convert_to_wanikani_item v (lookup !! Subject.id v))
       records)
  = map Subject.id records.
Proof. induction records as [|v l IH]; [done|]. simpl. by rewrite IH. Qed.

(** X16.  [get_user_knowledge] past the cache, exactly.  It raises [KeyError]
    when some started assignment has no "srs_stage" -- whether or not its
    subject is among the records fetched -- and nothing else.  Otherwise
    the snapshot has one item per subject record, in order, for vocabulary
    and for kanji: no record is left out for want of an assignment, and
    each item has the SRS stage of the last started assignment of its id,
    or none. *)
Theorem get_user_knowledge_exactly user_level assignments vocab_data kanji_data :
  (forall e,
     WaniKaniAPI.get_user_knowledge user_level assignments vocab_data kanji_data
       = Raise e <->
     e = KeyError /\
     exists a, a ∈ assignments /\ Assignment.is_started a = true /\
               Assignment.srs_stage a = None) /\
  (forall knowledge0,
     WaniKaniAPI.get_user_knowledge user_level assignments vocab_data kanji_data
       = Ok knowledge0 ->
     UserKnowledge.level knowledge0 = user_level /\
     map WaniKaniItem.id (UserKnowledge.vocabulary knowledge0)
       = map Subject.id vocab_data /\
     map WaniKaniItem.id (UserKnowledge.kanji knowledge0)
       = map Subject.id kanji_data /\
     forall w,
       w ∈ UserKnowledge.vocabulary knowledge0 ++ UserKnowledge.kanji knowledge0 ->
       WaniKaniItem.srs_stage w =
         last (List.filter (writes_lookup (WaniKaniItem.id w)) assignments)
           ≫= Assignment.srs_stage).
Proof.
  pose proof (fun lookup s => assignment_lookup_Ok assignments lookup s) as Hok.
  pose proof (assignment_lookup_Raise assignments) as Hraise.
  unfold WaniKaniAPI.get_user_knowledge.
  destruct (WaniKaniAPI.assignment_lookup assignments) as [lookup|e0] eqn:E.
  - split.
    + intros e. split; [discriminate|]. intros H. apply Hraise in H. discriminate.
    + intros k H. cbn in H. injection H as <-. cbn.
      split; [done|]. rewrite !convert_all_ids. split; [done|]. split; [done|].
      intros w Hw.
      apply elem_of_app in Hw as [Hw|Hw];
        apply list_elem_of_fmap in Hw as (v & -> & _); cbn; by apply Hok.
  - split; [|discriminate]. intros e. rewrite <- Hraise. cbn.
    split; intros H; by injection H as <-.
Qed.

(** ** Primary readings of converted records *)

(** X17.  The primary reading of an item made by [_convert_to_wanikani_item] is
    the reading of the first raw reading whose "primary" is true; a raw
    reading without the key does not count, and without any the item has
    no primary reading. *)
Theorem convert_primary_reading (raw_data : Subject.t) (srs_stage : option Z) :
  WaniKaniItem.primary_reading
    (WaniKaniAPI._convert_to_wanikani_item raw_data srs_stage)
  = RawReading.reading
      <$> List.find (fun r => bool_decide (RawReading.primary r = Some true))
            (Subject.readings raw_data).
Proof.
  unfold WaniKaniItem.primary_reading, WaniKaniAPI._convert_to_wanikani_item.
  cbn [WaniKaniItem.readings].
  induction (Subject.readings raw_data) as [|r l IH]; [done|].
  cbn [map List.filter List.find]. unfold Subject.convert_reading at 1.
  cbn [Reading.primary].
  destruct (RawReading.primary r) as [[|]|]; cbn.
  - reflexivity.
  - rewrite bool_decide_eq_false_2 by discriminate. apply IH.
  - rewrite bool_decide_eq_false_2 by discriminate. apply IH.
Qed.

Lemma build_basic_sentence_returns_witness :
  exists r, build_basic_sentence builder_two_nouns (fun _ => 0)
            = Ok (Some r, advance (advance (advance (fun _ => 0)))).
Proof.
  apply (build_basic_sentence_returns builder_two_nouns (fun _ => 0)
           [neko; inu] [taberu; taberu] neko inu).
  - reflexivity.
  - reflexivity.
  - apply list_elem_of_In. simpl. tauto.
  - apply list_elem_of_In. simpl. tauto.
  - vm_compute. reflexivity.
  - discriminate.
  - intros w Hw. apply list_elem_of_In in Hw. simpl in Hw.
    destruct Hw as [<-|[<-|[<-|[<-|[]]]]]; by eexists.
Defined.
